(** * EMI_RNNTrainer: a shallow embedding of [tf/edgeml/trainer/emirnnTrainer.py]

    The trainer is a Python object that validates three inputs, attaches a
    loss node and an optimiser node to the framework's default graph, and
    drives a session until the data runs out.  The embedding follows the
    file method by method.

    Modelling conventions.
    - Python exceptions are values of [exn]; a computation is a function
      from the mutable world (the trainer's attributes and the default
      graph's collections) to an outcome and the world it leaves behind, so
      that an exception keeps every mutation made before it was raised.
    - A tensor handed to the trainer is known by its static shape, a list
      of integers; statically unknown dimensions are not modelled.
    - The loss indicator is a numpy array: a shape and its entries in
      row-major order.  Entries are integers and their sums are exact (an
      integer mask whose sums stay within the machine range).
    - The framework is a parameter.  Every call into it that adds a node
      to the graph ([tf.reshape], [tf.tile], [tf.multiply], [tf.Variable],
      [minimize], ...) returns the node it describes, written as a term of
      [Node], unless the framework refuses the node; the framework decides
      that, and what it writes to the graph's collections on the way.  An
      exception raised inside the framework is [FrameworkError] with the
      name of its class, which keeps it apart from the exceptions this
      module raises itself. *)

From Stdlib Require Import ZArith List String QArith Lia Bool.
From stdpp Require Import gmap strings list.

Local Open Scope string_scope.
Local Open Scope Z_scope.

(** ** Exceptions and outcomes *)

Inductive exn : Type :=
| AssertionError (msg : option string)
| IndexError
| AttributeError (attr : string)
| UnboundLocalError (var : string)
| ZeroDivisionError
| ValueError
| OutOfRangeError
| FrameworkError (name : string).

Inductive result (A : Type) : Type :=
| Ok (a : A)
| Raise (e : exn).

Arguments Ok {A} a.
Arguments Raise {A} e.

Definition rbind {A B} (r : result A) (k : A -> result B) : result B :=
  match r with
  | Ok a => k a
  | Raise e => Raise e
  end.

(** ** numpy arrays *)

Record ndarray : Type := NDArray {
  nd_shape : list nat;
  nd_data : list Z
}.

Definition ndim (a : ndarray) : nat := length (nd_shape a).

(** [len(a)]: the extent of the first axis. *)
Definition nd_len (a : ndarray) : nat := hd 0%nat (nd_shape a).

Definition nd_wf (a : ndarray) : Prop :=
  length (nd_data a) = fold_right Nat.mul 1%nat (nd_shape a).

(** [a[i, j]] on a 2-d array, for non-negative [i] and [j]. *)
Definition getitem2 (a : ndarray) (i j : nat) : result Z :=
  match nd_shape a with
  | [r; c] =>
      if (i <? r)%nat && (j <? c)%nat
      then Ok (nth (i * c + j) (nd_data a) 0)
      else Raise IndexError
  | _ => Raise IndexError
  end.

(** Python's normalisation of a slice bound against an axis of extent [n]. *)
Definition clamp_bound (n : nat) (k : Z) : nat :=
  if k <? 0 then Z.to_nat (Z.max 0 (Z.of_nat n + k))
  else Nat.min (Z.to_nat k) n.

(** Number of entries in one item of the first axis. *)
Definition row_size (a : ndarray) : nat :=
  fold_right Nat.mul 1%nat (tl (nd_shape a)).

(** [a[:k]] and [a[k:]]: slices along the first axis. *)
Definition slice_to (a : ndarray) (k : Z) : ndarray :=
  let n := clamp_bound (nd_len a) k in
  NDArray (n :: tl (nd_shape a)) (firstn (n * row_size a) (nd_data a)).

Definition slice_from (a : ndarray) (k : Z) : ndarray :=
  let n := clamp_bound (nd_len a) k in
  NDArray ((nd_len a - n)%nat :: tl (nd_shape a))
          (skipn (n * row_size a) (nd_data a)).

(** [np.sum(a)] *)
Definition np_sum (a : ndarray) : Z := fold_right Z.add 0 (nd_data a).

(** The float32 nearest to an integer, ties to even: integers below 2^24
    in magnitude are kept, larger ones lose their low bits.  (An integer
    array has at most 64-bit entries, far from the float32 overflow.) *)
Definition round_f32 (x : Z) : Z :=
  let a := Z.abs x in
  if a <? 2 ^ 24 then x
  else
    let e := Z.log2 a - 23 in
    let q := a / 2 ^ e in
    let r := a mod 2 ^ e in
    let half := 2 ^ (e - 1) in
    let q' := if r <? half then q
              else if half <? r then q + 1
              else if Z.even q then q else q + 1 in
    Z.sgn x * (q' * 2 ^ e).

(** [a.astype('float32')]: a copy with every entry converted. *)
Definition astype_float32 (a : ndarray) : ndarray :=
  NDArray (nd_shape a) (map round_f32 (nd_data a)).

(** ** Graph nodes *)

(** A tensor supplied by the caller. *)
Record Tensor : Type := mkTensor {
  t_name : string;
  t_shape : list Z
}.

#[warnings="-register-all"]
Inductive Node : Type :=
| Given (t : Tensor)
| ExpandDims (x : Node) (axis : Z)
| Tile (x : Node) (multiples : list Z)
| Reshape (x : Node) (shape : list Z)
| Sub (a b : Node)
| Multiply (a b : Node)
| VariableNode (init : ndarray) (name : string) (trainable : bool)
| SliceAxis1From (x : Node) (start : Z)
| SoftmaxCrossEntropyV2 (labels logits : Node)
| ReduceMean (x : Node) (name : string)
| L2Loss (x : Node) (name : string)
| AdamMinimize (learning_rate : Q) (loss : option Node).

(** An externally built graph passed to the constructor. *)
Inductive Graph : Type := GraphRef (name : string).

(** ** The trainer object and the world it lives in *)

Record Trainer : Type := mkTrainer {
  numTimeSteps : Z;
  numOutput : Z;
  graph : option Graph;
  stepSize : Q;
  lossType : string;
  optimizer : string;
  automode : bool;
  validInit : bool;
  graphCreated : bool;
  lossOp : option Node;
  trainOp : option Node;
  lossIndicatorTensor : option Node;
  supportedLosses : list string;
  supportedOptimizers : list string
}.

Definition set_validInit (b : bool) (t : Trainer) : Trainer :=
  mkTrainer (numTimeSteps t) (numOutput t) (graph t) (stepSize t) (lossType t)
            (optimizer t) (automode t) b (graphCreated t) (lossOp t)
            (trainOp t) (lossIndicatorTensor t) (supportedLosses t)
            (supportedOptimizers t).

Definition set_graphCreated (b : bool) (t : Trainer) : Trainer :=
  mkTrainer (numTimeSteps t) (numOutput t) (graph t) (stepSize t) (lossType t)
            (optimizer t) (automode t) (validInit t) b (lossOp t)
            (trainOp t) (lossIndicatorTensor t) (supportedLosses t)
            (supportedOptimizers t).

Definition set_lossOp (o : option Node) (t : Trainer) : Trainer :=
  mkTrainer (numTimeSteps t) (numOutput t) (graph t) (stepSize t) (lossType t)
            (optimizer t) (automode t) (validInit t) (graphCreated t) o
            (trainOp t) (lossIndicatorTensor t) (supportedLosses t)
            (supportedOptimizers t).

Definition set_trainOp (o : option Node) (t : Trainer) : Trainer :=
  mkTrainer (numTimeSteps t) (numOutput t) (graph t) (stepSize t) (lossType t)
            (optimizer t) (automode t) (validInit t) (graphCreated t)
            (lossOp t) o (lossIndicatorTensor t) (supportedLosses t)
            (supportedOptimizers t).

Definition set_lossIndicatorTensor (o : option Node) (t : Trainer) : Trainer :=
  mkTrainer (numTimeSteps t) (numOutput t) (graph t) (stepSize t) (lossType t)
            (optimizer t) (automode t) (validInit t) (graphCreated t)
            (lossOp t) (trainOp t) o (supportedLosses t)
            (supportedOptimizers t).

(** The default graph's collections: [tf.add_to_collection] appends. *)
Record World : Type := mkWorld {
  self : Trainer;
  collections : gmap string (list (option Node))
}.

(** The framework, as far as graph construction sees it: asked to add a
    node to a graph with the given collections, it either accepts
    ([None]) or raises an exception of its own (the name of its class),
    and leaves the collections as it pleases. *)
Record Framework : Type := mkFramework {
  add_node :
    Node -> gmap string (list (option Node)) ->
    option string * gmap string (list (option Node))
}.

(** ** The state-and-exception monad *)

Definition M (A : Type) : Type := World -> result A * World.

Definition ret {A} (a : A) : M A := fun w => (Ok a, w).

Definition bind {A B} (m : M A) (k : A -> M B) : M B :=
  fun w =>
    match m w with
    | (Ok a, w') => k a w'
    | (Raise e, w') => (Raise e, w')
    end.

Definition raise {A} (e : exn) : M A := fun w => (Raise e, w).

Definition lift {A} (r : result A) : M A := fun w => (r, w).

Definition get_self : M Trainer := fun w => (Ok (self w), w).

Definition modify_self (f : Trainer -> Trainer) : M unit :=
  fun w => (Ok tt, mkWorld (f (self w)) (collections w)).

(** A call into the framework that adds node [n] to the graph. *)
Definition build (fw : Framework) (n : Node) : M Node :=
  fun w =>
    match add_node fw n (collections w) with
    | (None, c') => (Ok n, mkWorld (self w) c')
    | (Some name, c') => (Raise (FrameworkError name), mkWorld (self w) c')
    end.

Declare Scope py_scope.
Delimit Scope py_scope with py.
Notation "'let*' x ':=' m 'in' k" := (bind m (fun x => k))
  (at level 10, x name, m at level 100, k at level 200) : py_scope.
Local Open Scope py_scope.

(** [assert cond, msg] *)
Definition assert_ (cond : bool) (msg : option string) : result unit :=
  if cond then Ok tt else Raise (AssertionError msg).

Definition assertM (cond : bool) (msg : option string) : M unit :=
  lift (assert_ cond msg).

(** [x in xs] on a list of strings *)
Definition str_in (x : string) (xs : list string) : bool :=
  existsb (String.eqb x) xs.

(** ** [__init__] *)

Definition init (numTimeSteps_ numOutput_ : Z) (graph_ : option Graph)
    (stepSize_ : Q) (lossType_ optimizer_ : string) (automode_ : bool)
    : result Trainer :=
  let t := mkTrainer numTimeSteps_ numOutput_ graph_ stepSize_ lossType_
                     optimizer_ automode_ false false None None None
                     ["xentropy"; "l2"] ["Adam"] in
  rbind (assert_ (str_in lossType_ (supportedLosses t)) None) (fun _ =>
  rbind (assert_ (str_in optimizer_ (supportedOptimizers t)) None) (fun _ =>
  Ok t)).

(** ** [__findIndicatorStart] *)

(** The [for i in range(...)] loop, over the indices still to visit. *)
Fixpoint findIndicatorStart_loop (lossIndicator : ndarray) (range : list nat)
    : result Z :=
  match range with
  | [] => Ok (-1)
  | i :: range' =>
      rbind (getitem2 lossIndicator i 0) (fun x =>
      if x =? 1 then Ok (Z.of_nat i)
      else findIndicatorStart_loop lossIndicator range')
  end.

Definition findIndicatorStart (lossIndicator : ndarray) : result Z :=
  rbind (assert_ (ndim lossIndicator =? 2)%nat None) (fun _ =>
  findIndicatorStart_loop lossIndicator (seq 0 (nd_len lossIndicator))).

(** ** [__validateInit] *)

(** [t.shape[i]] *)
Definition shape_at (t : Tensor) (i : nat) : result Z :=
  match nth_error (t_shape t) i with
  | Some d => Ok d
  | None => Raise IndexError
  end.

Definition msg_dims : option string :=
  Some "Predicted/Target tensors have incorrect dimension".

Definition msg_indicator : option string :=
  Some "Invalid lossIndicator passed".

(** The checks of [__validateInit] on the two tensors (lines 61-67 of the
    source); they read the trainer and change nothing. *)
Definition validate_shapes (t : Trainer) (predicted target : Tensor)
    : result unit :=
  rbind (assert_ (length (t_shape predicted) =? 4)%nat msg_dims) (fun _ =>
  rbind (shape_at predicted 3) (fun p3 =>
  rbind (assert_ (p3 =? numOutput t) msg_dims) (fun _ =>
  rbind (shape_at predicted 2) (fun p2 =>
  rbind (assert_ (p2 =? numTimeSteps t) msg_dims) (fun _ =>
  rbind (shape_at predicted 1) (fun p1 =>
  rbind (shape_at target 1) (fun t1 =>
  rbind (assert_ (p1 =? t1) msg_dims) (fun _ =>
  rbind (assert_ (length (t_shape target) =? 3)%nat None) (fun _ =>
  rbind (shape_at target 2) (fun t2 =>
  assert_ (t2 =? numOutput t) None)))))))))).

(** The checks of [__validateInit] on the loss indicator (lines 68-74). *)
Definition validate_indicator (t : Trainer) (lossIndicator : ndarray)
    : result unit :=
  rbind (assert_ (ndim lossIndicator =? 2)%nat msg_indicator) (fun _ =>
  rbind (findIndicatorStart lossIndicator) (fun idx =>
  rbind (assert_ (0 <=? idx) msg_indicator) (fun _ =>
  rbind (assert_ (np_sum (slice_to lossIndicator idx) =? 0) msg_indicator)
        (fun _ =>
  let expected := (Z.of_nat (nd_len lossIndicator) - idx) * numOutput t in
  assert_ (np_sum (slice_from lossIndicator idx) =? expected) msg_indicator
  )))).

(** All the checks, in source order. *)
Definition validate_checks (t : Trainer) (predicted target : Tensor)
    (lossIndicator : ndarray) : result unit :=
  rbind (validate_shapes t predicted target) (fun _ =>
  validate_indicator t lossIndicator).

Definition validateInit (predicted target : Tensor) (lossIndicator : ndarray)
    : M unit :=
  let* t := get_self in
  let* _ := lift (validate_checks t predicted target lossIndicator) in
  modify_self (set_validInit true).

(** ** Graph construction *)

(** [__transformY]: the target is given a time axis and repeated along it. *)
Definition transformY (fw : Framework) (target : Node) : M Node :=
  let* t := get_self in
  let* A_ := build fw (ExpandDims target 2) in
  let* A__ := build fw (Tile A_ [1; 1; numTimeSteps t; 1]) in
  ret A__.

(** [__createLossOp] *)
Definition createLossOp (fw : Framework) (predicted target : Node)
    (lossIndicator : ndarray) : M Node :=
  let* t := get_self in
  let* _ := assertM (validInit t) (Some "Initialization failure") in
  let lossIndicator := astype_float32 lossIndicator in
  let* lit := build fw (VariableNode lossIndicator "lossIndicator" false) in
  let* _ := modify_self (set_lossIndicatorTensor (Some lit)) in
  let* logits__ :=
    build fw (Reshape predicted [-1; numTimeSteps t; numOutput t]) in
  let* labels__ :=
    build fw (Reshape target [-1; numTimeSteps t; numOutput t]) in
  let* diff := build fw (Sub logits__ labels__) in
  let* diff := build fw (Multiply lit diff) in
  let* idx := lift (findIndicatorStart lossIndicator) in
  let* logits__ := build fw (SliceAxis1From logits__ idx) in
  let* labels__ := build fw (SliceAxis1From labels__ idx) in
  let* logits__ := build fw (Reshape logits__ [-1; numOutput t]) in
  let* labels__ := build fw (Reshape labels__ [-1; numOutput t]) in
  if String.eqb (lossType t) "xentropy" then
    let* softmax1 := build fw (SoftmaxCrossEntropyV2 labels__ logits__) in
    build fw (ReduceMean softmax1 "xentropy-loss")
  else if String.eqb (lossType t) "l2" then
    build fw (L2Loss diff "l2-loss")
  else raise (UnboundLocalError "lossOp").

(** [__createTrainOp] *)
Definition createTrainOp (fw : Framework) : M Node :=
  let* t := get_self in
  build fw (AdamMinimize (stepSize t) (lossOp t)).

(** [tf.add_to_collection(name, value)] *)
Definition add_to_collection (name : string) (value : option Node) : M unit :=
  fun w =>
    let old := default [] (collections w !! name) in
    (Ok tt, mkWorld (self w) (<[name := (old ++ [value])%list]> (collections w))).

(** [createOpCollections] *)
Definition createOpCollections : M unit :=
  let* t := get_self in
  let* _ := add_to_collection "EMI-train-op" (trainOp t) in
  add_to_collection "EMI-loss-op" (lossOp t).

(** [_createGraph] *)
Definition createGraph (fw : Framework) (predicted target : Tensor)
    (lossIndicator : ndarray) : M unit :=
  let* target := transformY fw (Given target) in
  let* l := createLossOp fw (Given predicted) target lossIndicator in
  let* _ := modify_self (set_lossOp (Some l)) in
  let* tr := createTrainOp fw in
  let* _ := modify_self (set_trainOp (Some tr)) in
  let* t := get_self in
  let* _ := (if automode t then createOpCollections else ret tt) in
  modify_self (set_graphCreated true).

(** ** [__call__] *)

Definition is_some {A} (o : option A) : bool :=
  match o with Some _ => true | None => false end.

Definition call (fw : Framework) (predicted target : Tensor)
    (lossIndicator : ndarray) : M (option Node * option Node) :=
  let* t := get_self in
  if graphCreated t then
    let* _ := assertM (is_some (lossOp t)) None in
    let* _ := assertM (is_some (trainOp t)) None in
    ret (lossOp t, trainOp t)
  else
    let* _ := validateInit predicted target lossIndicator in
    let* t := get_self in
    let* _ := assertM (validInit t) None in
    let* _ := (match graph t with
               | None => createGraph fw predicted target lossIndicator
               | Some _ => raise (AttributeError "_restoreGraph")
               end) in
    let* t := get_self in
    let* _ := assertM (graphCreated t) None in
    ret (lossOp t, trainOp t).

(** ** Training *)

Inductive loop_outcome : Type :=
| Returned
| Raised (e : exn)
| OutOfFuel.

Section Training.

(** The execution session is owned by the framework: all this module sees
    of it is [sess.run], which answers a list of fetches with as many
    values or raises, and moves the session on. *)
Variable Session : Type.
Variable Val : Type.
Variable Feed : Type.
Variable sess_run :
  Session -> list (option Node) -> option Feed -> result (list Val) * Session.

(** What training acts on: the session and the text printed so far, one
    entry per [print] call (destination, batch number, loss). *)
Record TState : Type := mkTState {
  session : Session;
  printed : list (option string * Z * Val)
}.

Definition Callback : Type :=
  option Feed -> Z -> option string -> TState -> result unit * TState.

(** [__echoCB] *)
Definition echoCB (t : Trainer) : Callback :=
  fun feedDict currentBatch redirFile st =>
    match sess_run (session st) [trainOp t; lossOp t] feedDict with
    | (Ok [_; loss], s') =>
        (Ok tt,
         mkTState s' (printed st ++ [(redirFile, currentBatch, loss)])%list)
    | (Ok _, s') => (Raise ValueError, mkTState s' (printed st))
    | (Raise e, s') => (Raise e, mkTState s' (printed st))
    end.

(** [sess.run([self.trainOp], feed_dict=feedDict)], result dropped. *)
Definition plain_run (t : Trainer) (feedDict : option Feed) (st : TState)
    : result unit * TState :=
  match sess_run (session st) [trainOp t] feedDict with
  | (Ok _, s') => (Ok tt, mkTState s' (printed st))
  | (Raise e, s') => (Raise e, mkTState s' (printed st))
  end.

(** The statements guarded by [try], before [currentBatch += 1]. *)
Definition try_body (t : Trainer) (redirFile : option string)
    (echoInterval : Z) (cb : Callback) (feedDict : option Feed)
    (currentBatch : Z) (st : TState) : result unit * TState :=
  if echoInterval =? 0 then (Raise ZeroDivisionError, st)
  else if currentBatch mod echoInterval =? 0
       then cb feedDict currentBatch redirFile st
       else plain_run t feedDict st.

(** The [while True] loop; [fuel] bounds the number of iterations. *)
Fixpoint trainModel_loop (fuel : nat) (t : Trainer)
    (redirFile : option string) (echoInterval : Z) (cb : Callback)
    (feedDict : option Feed) (currentBatch : Z) (st : TState)
    : loop_outcome * Z * TState :=
  match fuel with
  | O => (OutOfFuel, currentBatch, st)
  | S fuel' =>
      match try_body t redirFile echoInterval cb feedDict currentBatch st with
      | (Ok _, st') =>
          trainModel_loop fuel' t redirFile echoInterval cb feedDict
                          (currentBatch + 1) st'
      | (Raise OutOfRangeError, st') => (Returned, currentBatch, st')
      | (Raise e, st') => (Raised e, currentBatch, st')
      end
  end.

(** [trainModel]: the outcome, the final value of [currentBatch] and the
    state left behind. *)
Definition trainModel (fuel : nat) (t : Trainer) (redirFile : option string)
    (echoInterval : Z) (echoCB_ : option Callback) (feedDict : option Feed)
    (st : TState) : loop_outcome * Z * TState :=
  let cb := match echoCB_ with
            | None => echoCB t
            | Some cb => cb
            end in
  trainModel_loop fuel t redirFile echoInterval cb feedDict 0 st.

(** *** The training pass in the words of its description *)

(** An echoed batch: one run that fetches the train step and the loss
    together, then one printed line with the batch number and the loss. *)
Definition described_echo (t : Trainer) (redirFile : option string)
    (feedDict : option Feed) (k : Z) (st : TState) : result unit * TState :=
  match sess_run (session st) [trainOp t; lossOp t] feedDict with
  | (Ok [_; loss], s') =>
      (Ok tt, mkTState s' (printed st ++ [(redirFile, k, loss)])%list)
  | (Ok _, s') => (Raise ValueError, mkTState s' (printed st))
  | (Raise e, s') => (Raise e, mkTState s' (printed st))
  end.

(** A plain batch: one run that fetches the train step alone. *)
Definition described_plain (t : Trainer) (feedDict : option Feed)
    (st : TState) : result unit * TState :=
  match sess_run (session st) [trainOp t] feedDict with
  | (Ok _, s') => (Ok tt, mkTState s' (printed st))
  | (Raise e, s') => (Raise e, mkTState s' (printed st))
  end.

(** One batch: on the multiples of the interval the caller's callback, or
    the echo above when none was given; a plain batch otherwise. *)
Definition batch_step (t : Trainer) (redirFile : option string)
    (echoInterval : Z) (echoCB_ : option Callback) (feedDict : option Feed)
    (k : Z) (st : TState) : result unit * TState :=
  if Z.eq_dec (k mod echoInterval) 0
  then match echoCB_ with
       | Some cb => cb feedDict k redirFile st
       | None => described_echo t redirFile feedDict k st
       end
  else described_plain t feedDict st.

(** [batches n k st st']: batches [k], [k+1], ..., [k+n-1] all succeed,
    taking [st] to [st']. *)
Inductive batches (t : Trainer) (redirFile : option string)
    (echoInterval : Z) (echoCB_ : option Callback) (feedDict : option Feed)
    : nat -> Z -> TState -> TState -> Prop :=
| batches_nil k st :
    batches t redirFile echoInterval echoCB_ feedDict 0 k st st
| batches_cons n k st st1 st' :
    batch_step t redirFile echoInterval echoCB_ feedDict k st = (Ok tt, st1) ->
    batches t redirFile echoInterval echoCB_ feedDict n (k + 1) st1 st' ->
    batches t redirFile echoInterval echoCB_ feedDict (S n) k st st'.

(** How a pass ends once a batch raises [e]. *)
Definition ending (e : exn) : loop_outcome :=
  match e with
  | OutOfRangeError => Returned
  | _ => Raised e
  end.

End Training.

Arguments TState : clear implicits.
Arguments mkTState {Session Val} _ _.
Arguments session {Session Val} _.
Arguments printed {Session Val} _.
Arguments Callback : clear implicits.
Arguments echoCB {Session Val Feed} sess_run t.
Arguments plain_run {Session Val Feed} sess_run t feedDict st.
Arguments try_body {Session Val Feed} sess_run t redirFile echoInterval cb
  feedDict currentBatch st.
Arguments trainModel_loop {Session Val Feed} sess_run fuel t redirFile
  echoInterval cb feedDict currentBatch st.
Arguments trainModel {Session Val Feed} sess_run fuel t redirFile
  echoInterval echoCB_ feedDict st.
Arguments described_echo {Session Val Feed} sess_run t redirFile feedDict k st.
Arguments described_plain {Session Val Feed} sess_run t feedDict st.
Arguments batch_step {Session Val Feed} sess_run t redirFile echoInterval
  echoCB_ feedDict k st.
Arguments batches {Session Val Feed} sess_run t redirFile echoInterval
  echoCB_ feedDict _ _ _ _.

(** ** The handles in the words of their description *)

(** The predictions reshaped to one row of time steps per sub-instance. *)
Definition reshaped_predictions (T O : Z) (predicted : Tensor) : Node :=
  Reshape (Given predicted) [-1; T; O].

(** The target repeated across all [T] time steps, in the same layout. *)
Definition tiled_target (T O : Z) (target : Tensor) : Node :=
  Reshape (Tile (ExpandDims (Given target) 2) [1; 1; T; 1]) [-1; T; O].

(** The mask as the graph holds it: a variable, not trained, whose
    initial value is the float32 copy of the indicator. *)
Definition mask_variable (mask : ndarray) : Node :=
  VariableNode (astype_float32 mask) "lossIndicator" false.

(** L2 loss of the mask times (predictions - tiled target). *)
Definition l2_loss_described (T O : Z) (predicted target : Tensor)
    (mask : ndarray) : Node :=
  L2Loss (Multiply (mask_variable mask)
                   (Sub (reshaped_predictions T O predicted)
                        (tiled_target T O target)))
         "l2-loss".

(** Mean softmax cross-entropy over the time steps from [start] onward. *)
Definition xentropy_loss_described (T O : Z) (predicted target : Tensor)
    (start : Z) : Node :=
  ReduceMean
    (SoftmaxCrossEntropyV2
       (Reshape (SliceAxis1From (tiled_target T O target) start) [-1; O])
       (Reshape (SliceAxis1From (reshaped_predictions T O predicted) start)
                [-1; O]))
    "xentropy-loss".

(** [idx] is the least row whose first entry is 1. *)
Definition indicator_start (lossIndicator : ndarray) (idx : nat) : Prop :=
  getitem2 lossIndicator idx 0 = Ok 1 /\
  forall j, (j < idx)%nat -> getitem2 lossIndicator j 0 <> Ok 1.

(** The acceptance condition of the loss indicator, as described. *)
Definition indicator_accepted (O : Z) (lossIndicator : ndarray) : Prop :=
  ndim lossIndicator = 2%nat /\
  exists idx : nat,
    indicator_start lossIndicator idx /\
    np_sum (slice_to lossIndicator (Z.of_nat idx)) = 0 /\
    np_sum (slice_from lossIndicator (Z.of_nat idx)) =
      (Z.of_nat (nd_len lossIndicator) - Z.of_nat idx) * O.

(** The collections once both handles have been registered. *)
Definition with_op_collections (colls : gmap string (list (option Node)))
    (l tr : option Node) : gmap string (list (option Node)) :=
  let c1 := <["EMI-train-op" :=
              (default [] (colls !! "EMI-train-op") ++ [tr])%list]> colls in
  <["EMI-loss-op" := (default [] (c1 !! "EMI-loss-op") ++ [l])%list]> c1.

(** ** What graph construction asks of the framework *)

Definition loss_by_kind (T O : Z) (lt : string) (p y : Tensor)
    (li : ndarray) (idx : Z) : Node :=
  if String.eqb lt "xentropy" then xentropy_loss_described T O p y idx
  else l2_loss_described T O p y li.

(** The nodes of [__transformY], in the order they are added. *)
Definition target_nodes (T : Z) (y : Tensor) : list Node :=
  [ExpandDims (Given y) 2; Tile (ExpandDims (Given y) 2) [1; 1; T; 1]].

(** The nodes [__createLossOp] adds after the mask variable. *)
Definition loss_nodes (T O : Z) (lt : string) (p y : Tensor) (li : ndarray)
    (idx : Z) : list Node :=
  let logits := reshaped_predictions T O p in
  let labels := tiled_target T O y in
  [logits; labels; Sub logits labels;
   Multiply (mask_variable li) (Sub logits labels);
   SliceAxis1From logits idx; SliceAxis1From labels idx;
   Reshape (SliceAxis1From logits idx) [-1; O];
   Reshape (SliceAxis1From labels idx) [-1; O]]
  ++ (if String.eqb lt "xentropy"
      then [SoftmaxCrossEntropyV2
              (Reshape (SliceAxis1From labels idx) [-1; O])
              (Reshape (SliceAxis1From logits idx) [-1; O]);
            xentropy_loss_described T O p y idx]
      else [l2_loss_described T O p y li]).

(** All the nodes of one graph construction, in order. *)
Definition graph_nodes (T O : Z) (ss : Q) (lt : string) (p y : Tensor)
    (li : ndarray) (idx : Z) : list Node :=
  target_nodes T y ++ [mask_variable li] ++ loss_nodes T O lt p y li idx
  ++ [AdamMinimize ss (Some (loss_by_kind T O lt p y li idx))].

(** Adding nodes one after the other, up to the first one refused. *)
Fixpoint add_nodes (fw : Framework) (nodes : list Node)
    (c : gmap string (list (option Node)))
    : option string * gmap string (list (option Node)) :=
  match nodes with
  | [] => (None, c)
  | n :: nodes' =>
      match add_node fw n c with
      | (None, c') => add_nodes fw nodes' c'
      | (Some name, c') => (Some name, c')
      end
  end.

(** The trainer as the constructor leaves it. *)
Definition fresh_trainer (T O : Z) (g : option Graph) (ss : Q) (lt : string)
    (am : bool) : Trainer :=
  mkTrainer T O g ss lt "Adam" am false false None None None
            ["xentropy"; "l2"] ["Adam"].

(** The trainer once a graph construction has gone through. *)
Definition built_from (t : Trainer) (li : ndarray) (loss : Node) : Trainer :=
  set_graphCreated true
    (set_trainOp (Some (AdamMinimize (stepSize t) (Some loss)))
       (set_lossOp (Some loss)
          (set_lossIndicatorTensor (Some (mask_variable li))
             (set_validInit true t)))).

(** ** Frameworks *)

(** A framework that accepts every node and keeps no books. *)
Definition accepting_framework : Framework :=
  mkFramework (fun _ c => (None, c)).

(** Broadcasting of two shapes, last axis first; [-1] is an extent that
    is not known statically and goes with anything. *)
Fixpoint broadcast_rev (r1 r2 : list Z) : option (list Z) :=
  match r1 with
  | [] => Some r2
  | d1 :: t1 =>
      match r2 with
      | [] => Some r1
      | d2 :: t2 =>
          match broadcast_rev t1 t2 with
          | None => None
          | Some t =>
              if d1 =? d2 then Some (d1 :: t)
              else if d1 =? 1 then Some (d2 :: t)
              else if d2 =? 1 then Some (d1 :: t)
              else if d1 =? -1 then Some (d2 :: t)
              else if d2 =? -1 then Some (d1 :: t)
              else None
          end
      end
  end.

(** The static shape of a node, where this file needs it. *)
Fixpoint static_shape (n : Node) : option (list Z) :=
  match n with
  | Given t => Some (t_shape t)
  | Reshape _ s => Some s
  | VariableNode a _ _ => Some (map Z.of_nat (nd_shape a))
  | Sub a b | Multiply a b =>
      match static_shape a, static_shape b with
      | Some s1, Some s2 =>
          match broadcast_rev (rev s1) (rev s2) with
          | Some r => Some (rev r)
          | None => None
          end
      | _, _ => None
      end
  | _ => None
  end.

(** A framework that, as TensorFlow does when the node is added, refuses
    an elementwise difference or product whose static shapes do not
    broadcast, with a ValueError; it accepts every other node. *)
Definition broadcast_framework : Framework :=
  mkFramework (fun n c =>
    match n with
    | Sub a b | Multiply a b =>
        match static_shape a, static_shape b with
        | Some s1, Some s2 =>
            match broadcast_rev (rev s1) (rev s2) with
            | Some _ => (None, c)
            | None => (Some "ValueError", c)
            end
        | _, _ => (None, c)
        end
    | _ => (None, c)
    end).

(** A framework that, as TensorFlow does, enters every new variable in
    the collection 'variables'; it accepts every node. *)
Definition collecting_framework : Framework :=
  mkFramework (fun n c =>
    match n with
    | VariableNode _ _ _ =>
        (None,
         <["variables" :=
            (default [] (c !! "variables") ++ [Some n])%list]> c)
    | _ => (None, c)
    end).

(** A framework leaves the trainer's own two collections alone. *)
Definition keeps_op_collections (fw : Framework) : Prop :=
  forall n c k,
    k = "EMI-train-op" \/ k = "EMI-loss-op" ->
    snd (add_node fw n c) !! k = c !! k.

(** ** Trainers a program can hold *)

(** A world is reachable when it comes from the constructor followed by any
    number of calls of the trainer and of [createOpCollections]. *)
Inductive reachable (fw : Framework) : World -> Prop :=
| reach_init T O g ss lt opt am t c :
    init T O g ss lt opt am = Ok t -> reachable fw (mkWorld t c)
| reach_call w p y li r w' :
    reachable fw w -> call fw p y li w = (r, w') -> reachable fw w'
| reach_collections w r w' :
    reachable fw w -> createOpCollections w = (r, w') -> reachable fw w'.

(** ** The life of a trainer *)

(** [evolves fw w w']: [w'] comes from [w] by any number of calls of the
    trainer and of [createOpCollections], whatever their outcomes. *)
Inductive evolves (fw : Framework) : World -> World -> Prop :=
| evolves_refl w : evolves fw w w
| evolves_call w1 w2 p y li r w3 :
    evolves fw w1 w2 -> call fw p y li w2 = (r, w3) -> evolves fw w1 w3
| evolves_collections w1 w2 r w3 :
    evolves fw w1 w2 -> createOpCollections w2 = (r, w3) ->
    evolves fw w1 w3.

(** What holds of a trainer built from given parameters throughout its
    life: the configuration is the constructor's; once the graph is
    created the handles belong together; before that there is no train
    handle; before the first successful validation there is nothing. *)
Definition trainer_inv (T O : Z) (g : option Graph) (ss : Q) (lt : string)
    (am : bool) (t : Trainer) : Prop :=
  numTimeSteps t = T /\ numOutput t = O /\ graph t = g /\ stepSize t = ss /\
  lossType t = lt /\ optimizer t = "Adam" /\ automode t = am /\
  (graphCreated t = true ->
   g = None /\ validInit t = true /\
   exists l li,
     lossOp t = Some l /\
     trainOp t = Some (AdamMinimize ss (Some l)) /\
     lossIndicatorTensor t = Some (mask_variable li)) /\
  (graphCreated t = false -> trainOp t = None) /\
  (validInit t = false ->
   graphCreated t = false /\ lossOp t = None /\
   lossIndicatorTensor t = None) /\
  (g <> None -> lossOp t = None /\ lossIndicatorTensor t = None).

(** A run of calls, outcomes dropped: the world after the last one. *)
Fixpoint run_calls (fw : Framework)
    (args : list (Tensor * Tensor * ndarray)) (w : World) : World :=
  match args with
  | [] => w
  | (p, y, li) :: args' => run_calls fw args' (snd (call fw p y li w))
  end.

(** The batch numbers below [n] that the default callback echoes. *)
Definition echo_batches (echoInterval : Z) (n : nat) : list Z :=
  List.filter (fun b => b mod echoInterval =? 0) (map Z.of_nat (seq 0 n)).

(** A 2-d mask of [r] rows and [c] columns whose first [idx] rows are
    zero and whose other rows are one. *)
Definition step_mask (r c idx : nat) : ndarray :=
  NDArray [r; c] (repeat 0 (idx * c) ++ repeat 1 ((r - idx) * c))%list.

(** ** Sample inputs *)

(** A default graph in which nothing has been collected yet. *)
Definition no_collections : gmap string (list (option Node)) := ∅.

Definition ex_predicted : Tensor := mkTensor "predicted" [4; 6; 2; 3].
Definition ex_target : Tensor := mkTensor "target" [4; 6; 3].

(** Two time steps, three outputs; the loss starts at the second step. *)
Definition ex_indicator : ndarray := NDArray [2; 3]%nat [0; 0; 0; 1; 1; 1].

(** Five rows of ones: accepted by validation for three outputs, though
    the trainer below has two time steps. *)
Definition ex_indicator_5x3 : ndarray :=
  NDArray [5; 3]%nat [1; 1; 1; 1; 1; 1; 1; 1; 1; 1; 1; 1; 1; 1; 1].


(** A target that lost its sub-instance and output axes. *)
Definition ex_target_1d : Tensor := mkTensor "target" [4].

(** A 2-d indicator with two rows and no columns. *)
Definition ex_indicator_nocols : ndarray := NDArray [2; 0]%nat [].

(** A 1-d indicator. *)
Definition ex_indicator_1d : ndarray := NDArray [3]%nat [1; 1; 1].

Definition ex_trainer (graph_ : option Graph) (lossType_ : string)
    (automode_ : bool) : Trainer :=
  mkTrainer 2 3 graph_ (1 # 1000) lossType_ "Adam" automode_ false false
            None None None ["xentropy"; "l2"] ["Adam"].

(** A session over a data set of finitely many batches: the state is the
    number of batches left, every fetch evaluates to 7, and a run on the
    exhausted data set raises the end-of-data error. *)
Definition ex_sess_run (left : nat) (fetches : list (option Node))
    (feedDict : option unit) : result (list Z) * nat :=
  match left with
  | O => (Raise OutOfRangeError, O)
  | S left' => (Ok (map (fun _ => 7) fetches), left')
  end.

(** A session whose second run breaks with a framework error. *)
Definition ex_sess_broken (calls : nat) (fetches : list (option Node))
    (feedDict : option unit) : result (list Z) * nat :=
  match calls with
  | 1%nat => (Raise (FrameworkError "InternalError"), 2%nat)
  | _ => (Ok (map (fun _ => 7) fetches), S calls)
  end.

(** An echo callback that does nothing on the first two batches and then
    signals the end of the data itself. *)
Definition ex_callback_stop : Callback nat Z unit :=
  fun _ currentBatch _ st =>
    if currentBatch <? 2 then (Ok tt, st) else (Raise OutOfRangeError, st).

(** * Properties *)

(** ** Basic facts about outcomes *)

Lemma assert_ok cond msg : assert_ cond msg = Ok tt <-> cond = true.
Proof. unfold assert_. destruct cond; split; intros; congruence. Qed.

Lemma assert_raise cond msg e :
  assert_ cond msg = Raise e -> cond = false /\ e = AssertionError msg.
Proof. unfold assert_. destruct cond; intros H; inversion H; auto. Qed.

Lemma rbind_ok {A B} (r : result A) (k : A -> result B) b :
  rbind r k = Ok b -> exists a, r = Ok a /\ k a = Ok b.
Proof. destruct r; simpl; intros H; [eauto | discriminate]. Qed.

Lemma rbind_raise {A B} (r : result A) (k : A -> result B) e :
  rbind r k = Raise e -> r = Raise e \/ exists a, r = Ok a /\ k a = Raise e.
Proof. destruct r; simpl; intros H; [eauto | left; congruence]. Qed.

Lemma str_in_losses s :
  str_in s ["xentropy"; "l2"] = true <-> s = "xentropy" \/ s = "l2".
Proof.
  unfold str_in; simpl. rewrite !orb_true_iff, !String.eqb_eq.
  intuition discriminate.
Qed.

Lemma str_in_optimizers s : str_in s ["Adam"] = true <-> s = "Adam".
Proof.
  unfold str_in; simpl. rewrite orb_true_iff, String.eqb_eq.
  intuition discriminate.
Qed.

(** ** The constructor *)

Lemma init_ok_inv T O g ss lt opt am t :
  init T O g ss lt opt am = Ok t ->
  t = mkTrainer T O g ss lt opt am false false None None None
                ["xentropy"; "l2"] ["Adam"] /\
  (lt = "xentropy" \/ lt = "l2") /\ opt = "Adam".
Proof.
  unfold init; simpl. intros H.
  apply rbind_ok in H as [[] [H1 H]]. apply rbind_ok in H as [[] [H2 H]].
  apply assert_ok in H1, H2.
  apply str_in_losses in H1. apply str_in_optimizers in H2.
  inversion H; auto.
Qed.

Lemma init_unfold T O g ss lt opt am :
  init T O g ss lt opt am =
  if str_in lt ["xentropy"; "l2"] && str_in opt ["Adam"]
  then Ok (mkTrainer T O g ss lt opt am false false None None None
                     ["xentropy"; "l2"] ["Adam"])
  else Raise (AssertionError None).
Proof.
  unfold init. cbn [supportedLosses supportedOptimizers].
  destruct (str_in lt ["xentropy"; "l2"]), (str_in opt ["Adam"]); reflexivity.
Qed.

(** C4. The constructor raises an assertion failure exactly when the loss
    kind is neither 'xentropy' nor 'l2' or the optimizer is not 'Adam'; on
    every supported combination it returns the new trainer, on which no
    graph has been created and both handles are unset. *)
Theorem init_raises_iff_unsupported T O g ss lt opt am :
  (init T O g ss lt opt am = Raise (AssertionError None) <->
   (~ (lt = "xentropy" \/ lt = "l2") \/ opt <> "Adam")) /\
  (init T O g ss lt opt am =
     Ok (mkTrainer T O g ss lt opt am false false None None None
                   ["xentropy"; "l2"] ["Adam"]) <->
   ((lt = "xentropy" \/ lt = "l2") /\ opt = "Adam")).
Proof.
  rewrite init_unfold.
  pose proof (str_in_losses lt) as Hl.
  pose proof (str_in_optimizers opt) as Ho.
  destruct (str_in lt ["xentropy"; "l2"]), (str_in opt ["Adam"]); simpl;
    intuition (try discriminate; try congruence).
Qed.

(** ** Validation *)

Lemma validate_checks_ok t p y li :
  validate_checks t p y li = Ok tt <->
  validate_shapes t p y = Ok tt /\ validate_indicator t li = Ok tt.
Proof.
  unfold validate_checks. split.
  - intros H. apply rbind_ok in H as [[] [H1 H2]]. auto.
  - intros [H1 H2]. rewrite H1. exact H2.
Qed.

Lemma validate_indicator_start t li :
  validate_indicator t li = Ok tt ->
  exists idx, findIndicatorStart li = Ok idx /\ 0 <= idx.
Proof.
  unfold validate_indicator. intros H.
  apply rbind_ok in H as [[] [_ H]].
  apply rbind_ok in H as [idx [Hidx H]].
  apply rbind_ok in H as [[] [Hpos _]].
  apply assert_ok in Hpos. exists idx. split; [exact Hidx | lia].
Qed.

(** ** The search for the indicator start *)

Lemma ndim_2_shape a :
  ndim a = 2%nat -> exists r c, nd_shape a = [r; c].
Proof.
  unfold ndim. destruct (nd_shape a) as [|r [|c [|d l]]]; simpl; try lia.
  eauto.
Qed.

Lemma getitem2_ok_inv a i j x :
  getitem2 a i j = Ok x ->
  exists r c, nd_shape a = [r; c] /\ (i < r)%nat /\ (j < c)%nat.
Proof.
  unfold getitem2.
  destruct (nd_shape a) as [|r [|c [|d l]]]; try discriminate.
  destruct (i <? r)%nat eqn:Hi; destruct (j <? c)%nat eqn:Hj;
    simpl; try discriminate.
  apply Nat.ltb_lt in Hi, Hj. eauto.
Qed.

Lemma getitem2_in_range a r c i j :
  nd_shape a = [r; c] -> (i < r)%nat -> (j < c)%nat ->
  getitem2 a i j = Ok (nth (i * c + j) (nd_data a) 0).
Proof.
  intros Hs Hi Hj. unfold getitem2. rewrite Hs.
  apply Nat.ltb_lt in Hi, Hj. rewrite Hi, Hj. reflexivity.
Qed.

Lemma getitem2_no_cols a r i :
  nd_shape a = [r; 0%nat] -> getitem2 a i 0 = Raise IndexError.
Proof.
  intros Hs. unfold getitem2. rewrite Hs.
  rewrite andb_false_r. reflexivity.
Qed.

(** A search that ends on a non-negative index ends on the least row whose
    first entry is 1. *)
Lemma find_loop_found a n : forall s z,
  findIndicatorStart_loop a (seq s n) = Ok z -> 0 <= z ->
  exists i, z = Z.of_nat i /\ (s <= i < s + n)%nat /\
            getitem2 a i 0 = Ok 1 /\
            forall j, (s <= j < i)%nat -> getitem2 a j 0 <> Ok 1.
Proof.
  induction n as [|n IH]; intros s z H Hz; simpl in H.
  - inversion H; lia.
  - destruct (getitem2 a s 0) as [x|e] eqn:Hx; simpl in H; [|discriminate].
    destruct (x =? 1) eqn:Hx1.
    + apply Z.eqb_eq in Hx1; subst x. inversion H; subst z.
      exists s. repeat split; try lia. exact Hx.
    + apply Z.eqb_neq in Hx1.
      destruct (IH _ _ H Hz) as (i & -> & Hi & Hg & Hmin).
      exists i. repeat split; try lia; [exact Hg|].
      intros j Hj. destruct (Nat.eq_dec j s) as [->|Hne].
      * rewrite Hx. congruence.
      * apply Hmin. lia.
Qed.

(** The search returns the least row whose first entry is 1. *)
Lemma find_loop_complete a n : forall s i,
  (s <= i < s + n)%nat ->
  getitem2 a i 0 = Ok 1 ->
  (forall j, (s <= j < i)%nat -> getitem2 a j 0 <> Ok 1) ->
  findIndicatorStart_loop a (seq s n) = Ok (Z.of_nat i).
Proof.
  induction n as [|n IH]; intros s i Hi Hg Hmin; [lia|].
  simpl. destruct (Nat.eq_dec i s) as [->|Hne].
  - rewrite Hg. reflexivity.
  - destruct (getitem2_ok_inv _ _ _ _ Hg) as (r & c & Hs & Hir & Hc).
    rewrite (getitem2_in_range a r c s 0%nat Hs) by lia. simpl.
    assert (Hs1 : getitem2 a s 0 <> Ok 1) by (apply Hmin; lia).
    rewrite (getitem2_in_range a r c s 0%nat Hs) in Hs1 by lia.
    destruct (_ =? 1) eqn:E.
    + apply Z.eqb_eq in E. congruence.
    + apply IH; [lia | exact Hg | intros j Hj; apply Hmin; lia].
Qed.

(** The search can only fail on the column lookup. *)
Lemma find_loop_raise a n : forall s e,
  findIndicatorStart_loop a (seq s n) = Raise e ->
  e = IndexError /\ exists i, (s <= i < s + n)%nat /\
                              getitem2 a i 0 = Raise IndexError.
Proof.
  induction n as [|n IH]; intros s e H; simpl in H; [discriminate|].
  destruct (getitem2 a s 0) as [x|e'] eqn:Hx; simpl in H.
  - destruct (x =? 1); [discriminate|].
    destruct (IH _ _ H) as (-> & i & Hi & Hg).
    split; [reflexivity|]. exists i. split; [lia | exact Hg].
  - inversion H; subst e'.
    assert (e = IndexError) as ->.
    { unfold getitem2 in Hx.
      destruct (nd_shape a) as [|r [|c [|d l]]]; try congruence.
      destruct (_ && _); congruence. }
    split; [reflexivity|]. exists s. split; [lia | exact Hx].
Qed.

Lemma findIndicatorStart_2d a :
  ndim a = 2%nat ->
  findIndicatorStart a = findIndicatorStart_loop a (seq 0 (nd_len a)).
Proof.
  intros H. unfold findIndicatorStart. rewrite H. reflexivity.
Qed.

Lemma findIndicatorStart_start a idx :
  findIndicatorStart a = Ok idx -> 0 <= idx ->
  exists i, idx = Z.of_nat i /\ indicator_start a i.
Proof.
  unfold findIndicatorStart. intros H Hpos.
  apply rbind_ok in H as [[] [_ H]].
  destruct (find_loop_found _ _ _ _ H Hpos) as (i & -> & Hi & Hg & Hmin).
  exists i. split; [reflexivity|]. split; [exact Hg|].
  intros j Hj. apply Hmin. lia.
Qed.

Lemma indicator_start_found a i :
  ndim a = 2%nat -> indicator_start a i ->
  findIndicatorStart a = Ok (Z.of_nat i).
Proof.
  intros Hd [Hg Hmin]. rewrite findIndicatorStart_2d by exact Hd.
  destruct (getitem2_ok_inv _ _ _ _ Hg) as (r & c & Hs & Hir & Hc).
  apply find_loop_complete; try assumption.
  - unfold nd_len. rewrite Hs. simpl. lia.
  - intros j Hj. apply Hmin. lia.
Qed.

(** ** The indicator checks *)

Lemma validate_indicator_iff t li :
  validate_indicator t li = Ok tt <-> indicator_accepted (numOutput t) li.
Proof.
  unfold validate_indicator, indicator_accepted. split.
  - intros H.
    apply rbind_ok in H as [[] [Hd H]]. apply assert_ok, Nat.eqb_eq in Hd.
    apply rbind_ok in H as [idx [Hidx H]].
    apply rbind_ok in H as [[] [Hpos H]]. apply assert_ok, Z.leb_le in Hpos.
    apply rbind_ok in H as [[] [Hs0 H]]. apply assert_ok, Z.eqb_eq in Hs0.
    apply assert_ok, Z.eqb_eq in H.
    destruct (findIndicatorStart_start _ _ Hidx Hpos) as (i & -> & Hst).
    split; [exact Hd|]. exists i. auto.
  - intros (Hd & i & Hst & Hs0 & Hs1).
    rewrite Hd. simpl.
    rewrite (indicator_start_found _ _ Hd Hst). simpl.
    replace (0 <=? Z.of_nat i) with true by (symmetry; apply Z.leb_le; lia).
    simpl. rewrite Hs0. simpl. rewrite Hs1, Z.eqb_refl. reflexivity.
Qed.

(** A rejected indicator fails with the indicator message, except for a
    2-d array that has rows but no columns, whose first-column lookup is
    out of range. *)
Lemma validate_indicator_raise t li e :
  validate_indicator t li = Raise e ->
  e = AssertionError msg_indicator \/
  (e = IndexError /\ exists r, nd_shape li = [S r; 0%nat]).
Proof.
  unfold validate_indicator. intros H.
  apply rbind_raise in H as [H | [[] [Hd H]]];
    [apply assert_raise in H as [_ ->]; auto|].
  apply assert_ok, Nat.eqb_eq in Hd.
  apply rbind_raise in H as [H | [idx [Hidx H]]].
  - right. rewrite findIndicatorStart_2d in H by exact Hd.
    destruct (find_loop_raise _ _ _ _ H) as (-> & i & Hi & Hg).
    split; [reflexivity|].
    destruct (ndim_2_shape _ Hd) as (r & c & Hs).
    unfold nd_len in Hi. rewrite Hs in Hi. simpl in Hi.
    destruct c as [|c].
    + destruct r as [|r]; [lia|]. eauto.
    + rewrite (getitem2_in_range li r (S c) i 0%nat Hs) in Hg by lia.
      discriminate.
  - left.
    apply rbind_raise in H as [H | [[] [_ H]]];
      [apply assert_raise in H as [_ ->]; auto|].
    apply rbind_raise in H as [H | [[] [_ H]]];
      [apply assert_raise in H as [_ ->]; auto|].
    apply assert_raise in H as [_ ->]. reflexivity.
Qed.

Lemma validate_indicator_no_cols t li r :
  nd_shape li = [S r; 0%nat] -> validate_indicator t li = Raise IndexError.
Proof.
  intros Hs. unfold validate_indicator, findIndicatorStart, ndim, nd_len.
  rewrite Hs. simpl. rewrite (getitem2_no_cols li (S r) 0 Hs). reflexivity.
Qed.

(** ** The shape checks *)

(** The shape checks pass exactly on a 4-d prediction and a 3-d target
    whose extents agree with the trainer and with each other. *)
Lemma validate_shapes_iff t p y :
  validate_shapes t p y = Ok tt <->
  exists b s b' s',
    t_shape p = [b; s; numTimeSteps t; numOutput t] /\
    t_shape y = [b'; s'; numOutput t] /\ s = s'.
Proof.
  unfold validate_shapes, shape_at. split.
  - intros H.
    apply rbind_ok in H as [[] [H4 H]]. apply assert_ok, Nat.eqb_eq in H4.
    destruct (t_shape p) as [|b [|s [|ts [|o [|x l]]]]]; try discriminate.
    simpl in H.
    apply rbind_ok in H as [[] [Ho H]]. apply assert_ok, Z.eqb_eq in Ho.
    apply rbind_ok in H as [[] [Ht H]]. apply assert_ok, Z.eqb_eq in Ht.
    destruct (t_shape y) as [|b' [|s' l']]; try discriminate.
    simpl in H.
    apply rbind_ok in H as [[] [Hs H]]. apply assert_ok, Z.eqb_eq in Hs.
    apply rbind_ok in H as [[] [H3 H]]. apply assert_ok, Nat.eqb_eq in H3.
    destruct l' as [|o' [|x' l']]; try discriminate.
    simpl in H. apply assert_ok, Z.eqb_eq in H.
    subst. exists b, s', b', s'. auto.
  - intros (b & s & b' & s' & -> & -> & ->). simpl.
    rewrite !Z.eqb_refl. reflexivity.
Qed.

(** A failure of the shape checks is an assertion failure unless the
    target has fewer than two axes, in which case reading its second extent
    is out of range. *)
Lemma validate_shapes_raise t p y e :
  validate_shapes t p y = Raise e ->
  (exists m, e = AssertionError m) \/
  (e = IndexError /\ (length (t_shape y) < 2)%nat).
Proof.
  unfold validate_shapes, shape_at. intros H.
  apply rbind_raise in H as [H | [[] [H4 H]]];
    [apply assert_raise in H as [_ ->]; eauto|].
  apply assert_ok, Nat.eqb_eq in H4.
  destruct (t_shape p) as [|b [|s [|ts [|o [|x l]]]]]; try discriminate.
  simpl in H.
  apply rbind_raise in H as [H | [[] [_ H]]];
    [apply assert_raise in H as [_ ->]; eauto|].
  apply rbind_raise in H as [H | [[] [_ H]]];
    [apply assert_raise in H as [_ ->]; eauto|].
  destruct (t_shape y) as [|b' [|s' l']]; simpl in H.
  - inversion H. right. split; [reflexivity | simpl; lia].
  - inversion H. right. split; [reflexivity | simpl; lia].
  - apply rbind_raise in H as [H | [[] [_ H]]];
      [apply assert_raise in H as [_ ->]; eauto|].
    apply rbind_raise in H as [H | [[] [H3 H]]];
      [apply assert_raise in H as [_ ->]; eauto|].
    apply assert_ok, Nat.eqb_eq in H3.
    destruct l' as [|o' [|x' l']]; try discriminate.
    simpl in H. apply assert_raise in H as [_ ->]. eauto.
Qed.

(** ** The float32 copy of the indicator *)

Lemma round_f32_one x : round_f32 x = 1 <-> x = 1.
Proof.
  unfold round_f32.
  destruct (Z.abs x <? 2 ^ 24) eqn:Hsmall; [tauto|].
  apply Z.ltb_ge in Hsmall.
  assert (Hx1 : x <> 1) by (intros ->; simpl in Hsmall; lia).
  split; [|intros; contradiction]. intros H. exfalso.
  set (a := Z.abs x) in *.
  assert (Ha : 0 < a) by lia.
  assert (Hl : 24 <= Z.log2 a) by (apply Z.log2_le_pow2; lia).
  set (e := Z.log2 a - 23) in *.
  assert (He : 1 <= e) by (subst e; lia).
  assert (H2e : 2 <= 2 ^ e).
  { change 2 with (2 ^ 1) at 1. apply Z.pow_le_mono_r; lia. }
  assert (Hle : 2 ^ e <= a).
  { pose proof (Z.log2_spec a Ha) as [Hlo _].
    assert (2 ^ e <= 2 ^ Z.log2 a)
      by (apply Z.pow_le_mono_r; subst e; lia).
    lia. }
  assert (Hq : 1 <= a / 2 ^ e)
    by (apply Z.div_le_lower_bound; lia).
  set (q := a / 2 ^ e) in *.
  set (q' := if a mod 2 ^ e <? 2 ^ (e - 1) then q
             else if 2 ^ (e - 1) <? a mod 2 ^ e then q + 1
             else if Z.even q then q else q + 1) in *.
  assert (Hq' : 1 <= q').
  { subst q'. destruct (_ <? _); [lia|].
    destruct (_ <? _); [lia|]. destruct (Z.even q); lia. }
  assert (Hbig : 2 <= q' * 2 ^ e) by nia.
  destruct x as [|px|px]; simpl Z.sgn in H; lia.
Qed.

Lemma getitem2_astype a i j :
  getitem2 (astype_float32 a) i j =
  rbind (getitem2 a i j) (fun x => Ok (round_f32 x)).
Proof.
  unfold getitem2, astype_float32. simpl nd_shape. simpl nd_data.
  destruct (nd_shape a) as [|r [|c [|d l]]]; try reflexivity.
  destruct ((i <? r)%nat && (j <? c)%nat); [|reflexivity].
  simpl. f_equal.
  change 0 with (round_f32 0) at 1. apply map_nth.
Qed.

Lemma find_loop_astype a range :
  findIndicatorStart_loop (astype_float32 a) range =
  findIndicatorStart_loop a range.
Proof.
  induction range as [|i range IH]; [reflexivity|].
  simpl. rewrite getitem2_astype.
  destruct (getitem2 a i 0) as [x|e]; simpl; [|reflexivity].
  rewrite IH.
  destruct (x =? 1) eqn:Hx.
  - apply Z.eqb_eq in Hx. subst x. reflexivity.
  - apply Z.eqb_neq in Hx.
    destruct (round_f32 x =? 1) eqn:Hr; [|reflexivity].
    apply Z.eqb_eq in Hr. apply (proj1 (round_f32_one x)) in Hr.
    contradiction.
Qed.

(** The start found on the float32 copy is the start of the indicator. *)
Lemma findIndicatorStart_astype a :
  findIndicatorStart (astype_float32 a) = findIndicatorStart a.
Proof.
  unfold findIndicatorStart.
  replace (ndim (astype_float32 a)) with (ndim a) by reflexivity.
  replace (nd_len (astype_float32 a)) with (nd_len a) by reflexivity.
  rewrite find_loop_astype. reflexivity.
Qed.

Example round_f32_examples :
  round_f32 1 = 1 /\ round_f32 16777216 = 16777216 /\
  round_f32 16777217 = 16777216 /\ round_f32 16777219 = 16777220 /\
  round_f32 (-16777217) = -16777216.
Proof. repeat split; reflexivity. Qed.

(** ** Adding nodes *)

Lemma add_nodes_app fw l1 l2 c :
  add_nodes fw (l1 ++ l2) c =
  match add_nodes fw l1 c with
  | (None, c') => add_nodes fw l2 c'
  | (Some name, c') => (Some name, c')
  end.
Proof.
  revert c. induction l1 as [|n l1 IH]; intros c; simpl; [reflexivity|].
  destruct (add_node fw n c) as [[name|] c']; [reflexivity|]. apply IH.
Qed.

Lemma add_nodes_accepting nodes c :
  add_nodes accepting_framework nodes c = (None, c).
Proof. induction nodes as [|n nodes IH]; simpl; auto. Qed.

Lemma set_validInit_id t : validInit t = true -> set_validInit true t = t.
Proof. destruct t; simpl; intros ->; reflexivity. Qed.

(** ** One graph construction *)

Lemma createGraph_run fw t c p y li idx :
  validInit t = true ->
  lossType t = "xentropy" \/ lossType t = "l2" ->
  findIndicatorStart li = Ok idx ->
  createGraph fw p y li (mkWorld t c) =
  match add_nodes fw (target_nodes (numTimeSteps t) y ++ [mask_variable li]) c
  with
  | (Some name, c1) => (Raise (FrameworkError name), mkWorld t c1)
  | (None, c1) =>
      match add_nodes fw (loss_nodes (numTimeSteps t) (numOutput t)
                            (lossType t) p y li idx) c1 with
      | (Some name, c2) =>
          (Raise (FrameworkError name),
           mkWorld (set_lossIndicatorTensor (Some (mask_variable li)) t) c2)
      | (None, c2) =>
          match add_node fw
                  (AdamMinimize (stepSize t)
                     (Some (loss_by_kind (numTimeSteps t) (numOutput t)
                              (lossType t) p y li idx))) c2 with
          | (Some name, c3) =>
              (Raise (FrameworkError name),
               mkWorld
                 (set_lossOp
                    (Some (loss_by_kind (numTimeSteps t) (numOutput t)
                             (lossType t) p y li idx))
                    (set_lossIndicatorTensor (Some (mask_variable li)) t))
                 c3)
          | (None, c3) =>
              (Ok tt,
               mkWorld
                 (built_from t li
                    (loss_by_kind (numTimeSteps t) (numOutput t)
                       (lossType t) p y li idx))
                 (if automode t
                  then with_op_collections c3
                         (Some (loss_by_kind (numTimeSteps t) (numOutput t)
                                  (lossType t) p y li idx))
                         (Some (AdamMinimize (stepSize t)
                                  (Some (loss_by_kind (numTimeSteps t)
                                           (numOutput t) (lossType t)
                                           p y li idx))))
                  else c3))
          end
      end
  end.
Proof.
  intros Hv Hlt Hidx.
  destruct t as [T O g ss lt opt am vi gc lo tro lit sl so].
  simpl in Hv, Hlt. subst vi.
  unfold createGraph, transformY, createLossOp, createTrainOp, bind, build,
    get_self, assertM, lift, modify_self, ret; cbn.
  rewrite findIndicatorStart_astype, Hidx.
  unfold target_nodes, loss_nodes, loss_by_kind, built_from,
    xentropy_loss_described, l2_loss_described, mask_variable,
    reshaped_predictions, tiled_target.
  destruct Hlt as [-> | ->]; cbn.
  all: repeat (match goal with
               | |- context [add_node ?f ?n ?c] =>
                   destruct (add_node f n c) as [[?|] ?]; cbn;
                   try reflexivity
               end).
  all: destruct am; reflexivity.
Qed.

Lemma add_nodes_graph fw T O ss lt p y li idx c :
  add_nodes fw (graph_nodes T O ss lt p y li idx) c =
  match add_nodes fw (target_nodes T y ++ [mask_variable li]) c with
  | (Some name, c1) => (Some name, c1)
  | (None, c1) =>
      match add_nodes fw (loss_nodes T O lt p y li idx) c1 with
      | (Some name, c2) => (Some name, c2)
      | (None, c2) =>
          add_node fw (AdamMinimize ss (Some (loss_by_kind T O lt p y li idx)))
                   c2
      end
  end.
Proof.
  unfold graph_nodes. rewrite app_assoc.
  rewrite (add_nodes_app fw (target_nodes T y ++ [mask_variable li])).
  destruct (add_nodes fw (target_nodes T y ++ [mask_variable li]) c)
    as [[n1|] c1]; [reflexivity|].
  rewrite add_nodes_app.
  destruct (add_nodes fw (loss_nodes T O lt p y li idx) c1) as [[n2|] c2];
    [reflexivity|].
  cbn [add_nodes].
  destruct (add_node fw _ c2) as [[n3|] c3]; reflexivity.
Qed.

(** ** The call on a trainer whose graph is not yet created *)

Lemma call_not_created_eq fw t c p y li :
  graphCreated t = false ->
  call fw p y li (mkWorld t c) =
  match validate_checks t p y li with
  | Raise e => (Raise e, mkWorld t c)
  | Ok _ =>
      match graph t with
      | Some _ =>
          (Raise (AttributeError "_restoreGraph"),
           mkWorld (set_validInit true t) c)
      | None =>
          match createGraph fw p y li (mkWorld (set_validInit true t) c) with
          | (Ok _, w1) =>
              if graphCreated (self w1)
              then (Ok (lossOp (self w1), trainOp (self w1)), w1)
              else (Raise (AssertionError None), w1)
          | (Raise e, w1) => (Raise e, w1)
          end
      end
  end.
Proof.
  intros Hg.
  unfold call, validateInit, bind, get_self, lift, modify_self, assertM,
    raise, ret; cbn.
  rewrite Hg. cbn.
  destruct (validate_checks t p y li) as [[]|e]; cbn; [|reflexivity].
  destruct (graph t) as [g|]; cbn; [reflexivity|].
  destruct (createGraph fw p y li _) as [[[]|e] w1]; cbn; [|reflexivity].
  destruct (graphCreated (self w1)); reflexivity.
Qed.

Lemma call_validation_fails fw t c p y li e :
  graphCreated t = false ->
  validate_checks t p y li = Raise e ->
  call fw p y li (mkWorld t c) = (Raise e, mkWorld t c).
Proof.
  intros Hg Hv. rewrite call_not_created_eq by exact Hg.
  rewrite Hv. reflexivity.
Qed.

Lemma call_with_graph fw t c p y li g :
  graphCreated t = false ->
  validate_checks t p y li = Ok tt ->
  graph t = Some g ->
  call fw p y li (mkWorld t c) =
  (Raise (AttributeError "_restoreGraph"), mkWorld (set_validInit true t) c).
Proof.
  intros Hg Hv Hgr. rewrite call_not_created_eq by exact Hg.
  rewrite Hv, Hgr. reflexivity.
Qed.

(** The call that goes on to build the graph: its outcome is decided by
    the framework, node after node. *)
Lemma call_builds_eq fw t c p y li idx :
  graphCreated t = false ->
  graph t = None ->
  lossType t = "xentropy" \/ lossType t = "l2" ->
  validate_checks t p y li = Ok tt ->
  findIndicatorStart li = Ok idx ->
  call fw p y li (mkWorld t c) =
  match add_nodes fw (target_nodes (numTimeSteps t) y ++ [mask_variable li]) c
  with
  | (Some name, c1) =>
      (Raise (FrameworkError name), mkWorld (set_validInit true t) c1)
  | (None, c1) =>
      match add_nodes fw (loss_nodes (numTimeSteps t) (numOutput t)
                            (lossType t) p y li idx) c1 with
      | (Some name, c2) =>
          (Raise (FrameworkError name),
           mkWorld (set_lossIndicatorTensor (Some (mask_variable li))
                      (set_validInit true t)) c2)
      | (None, c2) =>
          match add_node fw
                  (AdamMinimize (stepSize t)
                     (Some (loss_by_kind (numTimeSteps t) (numOutput t)
                              (lossType t) p y li idx))) c2 with
          | (Some name, c3) =>
              (Raise (FrameworkError name),
               mkWorld
                 (set_lossOp
                    (Some (loss_by_kind (numTimeSteps t) (numOutput t)
                             (lossType t) p y li idx))
                    (set_lossIndicatorTensor (Some (mask_variable li))
                       (set_validInit true t)))
                 c3)
          | (None, c3) =>
              (Ok (Some (loss_by_kind (numTimeSteps t) (numOutput t)
                           (lossType t) p y li idx),
                   Some (AdamMinimize (stepSize t)
                           (Some (loss_by_kind (numTimeSteps t) (numOutput t)
                                    (lossType t) p y li idx)))),
               mkWorld
                 (built_from t li
                    (loss_by_kind (numTimeSteps t) (numOutput t)
                       (lossType t) p y li idx))
                 (if automode t
                  then with_op_collections c3
                         (Some (loss_by_kind (numTimeSteps t) (numOutput t)
                                  (lossType t) p y li idx))
                         (Some (AdamMinimize (stepSize t)
                                  (Some (loss_by_kind (numTimeSteps t)
                                           (numOutput t) (lossType t)
                                           p y li idx))))
                  else c3))
          end
      end
  end.
Proof.
  intros Hg Hgr Hlt Hv Hidx.
  rewrite call_not_created_eq by exact Hg. rewrite Hv, Hgr.
  rewrite (createGraph_run fw (set_validInit true t) c p y li idx
             eq_refl Hlt Hidx).
  cbn [numTimeSteps numOutput lossType stepSize automode set_validInit].
  destruct (add_nodes fw (target_nodes _ y ++ _) c) as [[n1|] c1];
    [reflexivity|].
  destruct (add_nodes fw (loss_nodes _ _ _ p y li idx) c1) as [[n2|] c2];
    [reflexivity|].
  destruct (add_node fw _ c2) as [[n3|] c3]; reflexivity.
Qed.

Lemma call_accepted fw t c p y li idx c' :
  graphCreated t = false ->
  graph t = None ->
  lossType t = "xentropy" \/ lossType t = "l2" ->
  validate_checks t p y li = Ok tt ->
  findIndicatorStart li = Ok idx ->
  add_nodes fw (graph_nodes (numTimeSteps t) (numOutput t) (stepSize t)
                  (lossType t) p y li idx) c = (None, c') ->
  call fw p y li (mkWorld t c) =
  (Ok (Some (loss_by_kind (numTimeSteps t) (numOutput t) (lossType t)
               p y li idx),
       Some (AdamMinimize (stepSize t)
               (Some (loss_by_kind (numTimeSteps t) (numOutput t)
                        (lossType t) p y li idx)))),
   mkWorld
     (built_from t li
        (loss_by_kind (numTimeSteps t) (numOutput t) (lossType t) p y li idx))
     (if automode t
      then with_op_collections c'
             (Some (loss_by_kind (numTimeSteps t) (numOutput t) (lossType t)
                      p y li idx))
             (Some (AdamMinimize (stepSize t)
                      (Some (loss_by_kind (numTimeSteps t) (numOutput t)
                               (lossType t) p y li idx))))
      else c')).
Proof.
  intros Hg Hgr Hlt Hv Hidx Hadd.
  rewrite (call_builds_eq fw t c p y li idx Hg Hgr Hlt Hv Hidx).
  rewrite add_nodes_graph in Hadd.
  destruct (add_nodes fw (target_nodes _ y ++ _) c) as [[n1|] c1];
    [discriminate|].
  destruct (add_nodes fw (loss_nodes _ _ _ p y li idx) c1) as [[n2|] c2];
    [discriminate|].
  destruct (add_node fw _ c2) as [[n3|] c3]; [discriminate|].
  inversion Hadd; subst. reflexivity.
Qed.

Lemma call_refused fw t c p y li idx name c' :
  graphCreated t = false ->
  graph t = None ->
  lossType t = "xentropy" \/ lossType t = "l2" ->
  validate_checks t p y li = Ok tt ->
  findIndicatorStart li = Ok idx ->
  add_nodes fw (graph_nodes (numTimeSteps t) (numOutput t) (stepSize t)
                  (lossType t) p y li idx) c = (Some name, c') ->
  exists t',
    call fw p y li (mkWorld t c) = (Raise (FrameworkError name), mkWorld t' c')
    /\ (t' = set_validInit true t \/
        t' = set_lossIndicatorTensor (Some (mask_variable li))
               (set_validInit true t) \/
        t' = set_lossOp
               (Some (loss_by_kind (numTimeSteps t) (numOutput t)
                        (lossType t) p y li idx))
               (set_lossIndicatorTensor (Some (mask_variable li))
                  (set_validInit true t))).
Proof.
  intros Hg Hgr Hlt Hv Hidx Hadd.
  rewrite (call_builds_eq fw t c p y li idx Hg Hgr Hlt Hv Hidx).
  rewrite add_nodes_graph in Hadd.
  destruct (add_nodes fw (target_nodes _ y ++ _) c) as [[n1|] c1].
  { inversion Hadd; subst. eauto. }
  destruct (add_nodes fw (loss_nodes _ _ _ p y li idx) c1) as [[n2|] c2].
  { inversion Hadd; subst. eauto. }
  destruct (add_node fw _ c2) as [[n3|] c3]; [|discriminate].
  inversion Hadd; subst. eauto 6.
Qed.

(** ** The first call on a trainer without a graph *)

(** C1. On a trainer constructed without a graph, with a supported loss
    kind and optimizer, and on inputs that pass validation, the first call
    goes as the framework lets it: if every node of the graph (the two
    target nodes, the mask variable, the loss nodes, the Adam step, in this
    order) is accepted, the call returns the loss and train handles, both
    set, the trainer holds them and its graph is marked as created; if a
    node is refused, the framework's exception comes out of the call and
    the graph is not marked as created. *)
Theorem first_call_builds_graph fw T O ss lt opt am t c p y li idx :
  init T O None ss lt opt am = Ok t ->
  validate_checks t p y li = Ok tt ->
  findIndicatorStart li = Ok idx ->
  (forall c',
     add_nodes fw (graph_nodes T O ss lt p y li idx) c = (None, c') ->
     exists l tr w',
       call fw p y li (mkWorld t c) = (Ok (Some l, Some tr), w') /\
       l = loss_by_kind T O lt p y li idx /\
       tr = AdamMinimize ss (Some l) /\
       lossOp (self w') = Some l /\
       trainOp (self w') = Some tr /\
       graphCreated (self w') = true) /\
  (forall name c',
     add_nodes fw (graph_nodes T O ss lt p y li idx) c = (Some name, c') ->
     exists w',
       call fw p y li (mkWorld t c) = (Raise (FrameworkError name), w') /\
       collections w' = c' /\
       graphCreated (self w') = false /\
       trainOp (self w') = None).
Proof.
  intros Hinit Hv Hidx.
  apply init_ok_inv in Hinit as (-> & Hlt & ->). split.
  - intros c' Hadd. eexists _, _, _. split.
    + apply (call_accepted fw (fresh_trainer T O None ss lt am) c p y li
               idx c'); try reflexivity; assumption.
    + cbn. auto 10.
  - intros name c' Hadd.
    destruct (call_refused fw (fresh_trainer T O None ss lt am) c p y li idx
                name c' eq_refl eq_refl Hlt Hv Hidx Hadd) as (t' & Hc & Ht').
    exists (mkWorld t' c'). split; [exact Hc|].
    destruct Ht' as [-> | [-> | ->]]; cbn; auto.
Qed.

Lemma first_call_builds_graph_witness :
  (forall c',
     add_nodes broadcast_framework
       (graph_nodes 2 3 (1 # 1000) "l2" ex_predicted ex_target ex_indicator 1)
       no_collections = (None, c') ->
     exists l tr w',
       call broadcast_framework ex_predicted ex_target ex_indicator
            (mkWorld (ex_trainer None "l2" true) no_collections) =
         (Ok (Some l, Some tr), w') /\
       l = loss_by_kind 2 3 "l2" ex_predicted ex_target ex_indicator 1 /\
       tr = AdamMinimize (1 # 1000) (Some l) /\
       lossOp (self w') = Some l /\
       trainOp (self w') = Some tr /\
       graphCreated (self w') = true) /\
  (forall name c',
     add_nodes broadcast_framework
       (graph_nodes 2 3 (1 # 1000) "l2" ex_predicted ex_target ex_indicator 1)
       no_collections = (Some name, c') ->
     exists w',
       call broadcast_framework ex_predicted ex_target ex_indicator
            (mkWorld (ex_trainer None "l2" true) no_collections) =
         (Raise (FrameworkError name), w') /\
       collections w' = c' /\
       graphCreated (self w') = false /\
       trainOp (self w') = None).
Proof.
  apply (first_call_builds_graph broadcast_framework 2 3 (1 # 1000) "l2"
           "Adam" true (ex_trainer None "l2" true) no_collections
           ex_predicted ex_target ex_indicator 1); reflexivity.
Defined.

Example first_call_accepted_by_broadcast_framework :
  add_nodes broadcast_framework
    (graph_nodes 2 3 (1 # 1000) "l2" ex_predicted ex_target ex_indicator 1)
    no_collections = (None, no_collections).
Proof. reflexivity. Qed.

(** C1 without the proviso on the framework fails: five rows of ones
    pass validation for three outputs, but on a trainer with two time steps
    the product of the 5x3 mask with the [-1, 2, 3] difference does not
    broadcast, so a framework that checks this refuses the node and the
    first call raises instead of returning the handles. *)
Lemma first_call_can_raise_after_validation :
  init 2 3 None (1 # 1000) "l2" "Adam" true = Ok (ex_trainer None "l2" true) /\
  validate_checks (ex_trainer None "l2" true) ex_predicted ex_target
                  ex_indicator_5x3 = Ok tt /\
  call broadcast_framework ex_predicted ex_target ex_indicator_5x3
       (mkWorld (ex_trainer None "l2" true) no_collections) =
  (Raise (FrameworkError "ValueError"),
   mkWorld (set_lossIndicatorTensor (Some (mask_variable ex_indicator_5x3))
              (set_validInit true (ex_trainer None "l2" true)))
           no_collections).
Proof. repeat split; reflexivity. Qed.




(** ** Collections *)

Lemma with_op_collections_train c l tr :
  with_op_collections c l tr !! "EMI-train-op" =
  Some (default [] (c !! "EMI-train-op") ++ [tr])%list.
Proof.
  unfold with_op_collections.
  rewrite lookup_insert_ne by discriminate.
  apply lookup_insert_eq.
Qed.

Lemma with_op_collections_loss c l tr :
  with_op_collections c l tr !! "EMI-loss-op" =
  Some (default [] (c !! "EMI-loss-op") ++ [l])%list.
Proof.
  unfold with_op_collections.
  rewrite lookup_insert_eq.
  rewrite lookup_insert_ne by discriminate. reflexivity.
Qed.

Lemma lookup_not_extended (c : gmap string (list (option Node))) k x :
  c !! k <> Some (default [] (c !! k) ++ [x])%list.
Proof.
  destruct (c !! k) as [l0|] eqn:E; simpl; [|discriminate].
  intros H. inversion H as [H1].
  apply (f_equal (@length _)) in H1. rewrite length_app in H1. simpl in H1.
  lia.
Qed.

Lemma createOpCollections_unfold t c :
  createOpCollections (mkWorld t c) =
  (Ok tt, mkWorld t (with_op_collections c (lossOp t) (trainOp t))).
Proof. reflexivity. Qed.

Lemma add_nodes_keeps fw nodes : forall c r c' k,
  keeps_op_collections fw ->
  k = "EMI-train-op" \/ k = "EMI-loss-op" ->
  add_nodes fw nodes c = (r, c') ->
  c' !! k = c !! k.
Proof.
  induction nodes as [|n nodes IH]; intros c r c' k Hk Hkey H; simpl in H.
  - inversion H. reflexivity.
  - pose proof (Hk n c k Hkey) as Hn.
    destruct (add_node fw n c) as [[name|] c1]; simpl in Hn.
    + inversion H; subst. exact Hn.
    + rewrite (IH c1 r c' k Hk Hkey H). exact Hn.
Qed.

(** C7. On a trainer constructed without a graph and on inputs that pass
    validation, whenever the first call returns: the collections
    'EMI-train-op' and 'EMI-loss-op' are extended with the new train and
    loss handles exactly when [automode] is on; with [automode] off these
    two collections are as before the call and an explicit call of
    [createOpCollections] then registers both handles.  In either case the
    trainer writes nothing else: the other collections are what the
    framework made of them while it added the nodes.  (The framework is
    taken to leave the trainer's two collections alone.) *)
Theorem op_collections_iff_automode
    fw T O ss lt opt am t c p y li ol otr w' :
  init T O None ss lt opt am = Ok t ->
  validate_checks t p y li = Ok tt ->
  keeps_op_collections fw ->
  call fw p y li (mkWorld t c) = (Ok (ol, otr), w') ->
  exists l tr idx c',
    ol = Some l /\ otr = Some tr /\
    add_nodes fw (graph_nodes T O ss lt p y li idx) c = (None, c') /\
    collections w' = (if am then with_op_collections c' (Some l) (Some tr)
                      else c') /\
    ((collections w' !! "EMI-train-op" =
        Some (default [] (c !! "EMI-train-op") ++ [Some tr])%list /\
      collections w' !! "EMI-loss-op" =
        Some (default [] (c !! "EMI-loss-op") ++ [Some l])%list)
     <-> am = true) /\
    (am = false ->
     collections w' !! "EMI-train-op" = c !! "EMI-train-op" /\
     collections w' !! "EMI-loss-op" = c !! "EMI-loss-op" /\
     createOpCollections w' =
       (Ok tt, mkWorld (self w')
                       (with_op_collections c' (Some l) (Some tr)))).
Proof.
  intros Hinit Hv Hk Hc.
  apply init_ok_inv in Hinit as (-> & Hlt & ->).
  pose proof Hv as Hv'. apply validate_checks_ok in Hv' as [_ Hi].
  destruct (validate_indicator_start _ _ Hi) as (idx & Hidx & _).
  destruct (add_nodes fw (graph_nodes T O ss lt p y li idx) c)
    as [[name|] c'] eqn:Hadd.
  - exfalso.
    destruct (call_refused fw (fresh_trainer T O None ss lt am) c p y li
                idx name c' eq_refl eq_refl Hlt Hv Hidx Hadd)
      as (t' & Hc' & _).
    unfold fresh_trainer in Hc'. rewrite Hc in Hc'. discriminate.
  - pose proof (call_accepted fw (fresh_trainer T O None ss lt am) c p y li
                  idx c' eq_refl eq_refl Hlt Hv Hidx Hadd) as Hc'.
    unfold fresh_trainer in Hc'. rewrite Hc in Hc'.
    inversion Hc'; subst. cbn [fresh_trainer numTimeSteps numOutput stepSize
                               lossType automode collections self].
    assert (Htr : c' !! "EMI-train-op" = c !! "EMI-train-op")
      by (eapply add_nodes_keeps; eauto).
    assert (Hlo : c' !! "EMI-loss-op" = c !! "EMI-loss-op")
      by (eapply add_nodes_keeps; eauto).
    eexists _, _, idx, c'.
    split; [reflexivity|]. split; [reflexivity|]. split; [exact Hadd|].
    split; [reflexivity|].
    destruct am.
    + split; [|intros; discriminate].
      split; [reflexivity|]. intros _. split.
      * rewrite with_op_collections_train, Htr. reflexivity.
      * rewrite with_op_collections_loss, Hlo. reflexivity.
    + split.
      * split; [|discriminate]. intros [H _]. exfalso.
        rewrite Htr in H. exact (lookup_not_extended _ _ _ H).
      * intros _. repeat split; assumption.
Qed.

Lemma collecting_framework_keeps : keeps_op_collections collecting_framework.
Proof.
  intros n c k Hk. destruct n; simpl; try reflexivity.
  apply lookup_insert_ne. destruct Hk as [-> | ->]; discriminate.
Qed.

Lemma broadcast_framework_keeps : keeps_op_collections broadcast_framework.
Proof.
  intros n c k Hk. destruct n; simpl; try reflexivity.
  - destruct (static_shape n1), (static_shape n2); try reflexivity.
    destruct (broadcast_rev _ _); reflexivity.
  - destruct (static_shape n1), (static_shape n2); try reflexivity.
    destruct (broadcast_rev _ _); reflexivity.
Qed.

Lemma op_collections_iff_automode_witness :
  exists l tr idx c',
    Some (l2_loss_described 2 3 ex_predicted ex_target ex_indicator) = Some l
    /\ Some (AdamMinimize (1 # 1000)
               (Some (l2_loss_described 2 3 ex_predicted ex_target
                        ex_indicator))) = Some tr /\
    add_nodes collecting_framework
      (graph_nodes 2 3 (1 # 1000) "l2" ex_predicted ex_target ex_indicator
         idx) no_collections = (None, c') /\
    collections
      (snd (call collecting_framework ex_predicted ex_target ex_indicator
              (mkWorld (ex_trainer None "l2" false) no_collections))) =
      (if false then with_op_collections c' (Some l) (Some tr) else c') /\
    ((collections
        (snd (call collecting_framework ex_predicted ex_target ex_indicator
                (mkWorld (ex_trainer None "l2" false) no_collections)))
        !! "EMI-train-op" =
        Some (default [] (no_collections !! "EMI-train-op") ++ [Some tr])%list
      /\
      collections
        (snd (call collecting_framework ex_predicted ex_target ex_indicator
                (mkWorld (ex_trainer None "l2" false) no_collections)))
        !! "EMI-loss-op" =
        Some (default [] (no_collections !! "EMI-loss-op") ++ [Some l])%list)
     <-> false = true) /\
    (false = false ->
     collections
       (snd (call collecting_framework ex_predicted ex_target ex_indicator
               (mkWorld (ex_trainer None "l2" false) no_collections)))
       !! "EMI-train-op" = no_collections !! "EMI-train-op" /\
     collections
       (snd (call collecting_framework ex_predicted ex_target ex_indicator
               (mkWorld (ex_trainer None "l2" false) no_collections)))
       !! "EMI-loss-op" = no_collections !! "EMI-loss-op" /\
     createOpCollections
       (snd (call collecting_framework ex_predicted ex_target ex_indicator
               (mkWorld (ex_trainer None "l2" false) no_collections))) =
       (Ok tt,
        mkWorld
          (self (snd (call collecting_framework ex_predicted ex_target
                        ex_indicator
                        (mkWorld (ex_trainer None "l2" false)
                                 no_collections))))
          (with_op_collections c' (Some l) (Some tr)))).
Proof.
  apply (op_collections_iff_automode collecting_framework 2 3 (1 # 1000)
           "l2" "Adam" false (ex_trainer None "l2" false) no_collections
           ex_predicted ex_target ex_indicator).
  - reflexivity.
  - reflexivity.
  - exact collecting_framework_keeps.
  - reflexivity.
Defined.

(** C7 read on every collection fails: with [automode] off the call
    still leaves a collection changed, because the framework enters the
    new mask variable in its collection 'variables'. *)
Lemma automode_off_call_touches_a_collection :
  init 2 3 None (1 # 1000) "l2" "Adam" false =
    Ok (ex_trainer None "l2" false) /\
  validate_checks (ex_trainer None "l2" false) ex_predicted ex_target
                  ex_indicator = Ok tt /\
  (exists l tr,
     fst (call collecting_framework ex_predicted ex_target ex_indicator
            (mkWorld (ex_trainer None "l2" false) no_collections)) =
     Ok (Some l, Some tr)) /\
  collections
    (snd (call collecting_framework ex_predicted ex_target ex_indicator
            (mkWorld (ex_trainer None "l2" false) no_collections)))
    !! "variables" = Some [Some (mask_variable ex_indicator)] /\
  no_collections !! "variables" = None.
Proof.
  split; [reflexivity|]. split; [reflexivity|].
  split; [eexists _, _; reflexivity|].
  split; reflexivity.
Qed.

(** ** A trainer constructed with a graph *)

(** C8. On a trainer constructed with a graph, the first call on inputs
    that pass validation does not return the handles: validation succeeds
    (the valid-init flag is set) and the call then fails on the missing
    method [_restoreGraph] with an attribute error. *)
Theorem call_with_graph_raises_attribute_error
    fw T O g ss lt opt am t c p y li :
  init T O (Some g) ss lt opt am = Ok t ->
  validate_checks t p y li = Ok tt ->
  call fw p y li (mkWorld t c) =
  (Raise (AttributeError "_restoreGraph"),
   mkWorld (set_validInit true t) c).
Proof.
  intros Hinit Hv.
  apply init_ok_inv in Hinit as (-> & _ & ->).
  apply (call_with_graph fw (fresh_trainer T O (Some g) ss lt am) c p y li g);
    [reflexivity | exact Hv | reflexivity].
Qed.

Lemma call_with_graph_raises_attribute_error_witness :
  call accepting_framework ex_predicted ex_target ex_indicator
       (mkWorld (ex_trainer (Some (GraphRef "emi")) "l2" true) no_collections)
  = (Raise (AttributeError "_restoreGraph"),
     mkWorld
       (set_validInit true (ex_trainer (Some (GraphRef "emi")) "l2" true))
       no_collections).
Proof.
  apply (call_with_graph_raises_attribute_error accepting_framework 2 3
           (GraphRef "emi") (1 # 1000) "l2" "Adam" true); reflexivity.
Defined.

(** ** What holds throughout a trainer's life *)

Lemma call_created fw t c p y li l tr :
  graphCreated t = true -> lossOp t = Some l -> trainOp t = Some tr ->
  call fw p y li (mkWorld t c) = (Ok (Some l, Some tr), mkWorld t c).
Proof.
  intros Hg Hl Htr. unfold call, bind, get_self; cbn.
  rewrite Hg, Hl, Htr. reflexivity.
Qed.

Lemma call_created_world fw t c p y li :
  graphCreated t = true -> snd (call fw p y li (mkWorld t c)) = mkWorld t c.
Proof.
  intros Hg. unfold call, bind, get_self; cbn. rewrite Hg.
  destruct (lossOp t), (trainOp t); reflexivity.
Qed.

Lemma fresh_trainer_inv T O g ss lt am :
  trainer_inv T O g ss lt am (fresh_trainer T O g ss lt am).
Proof.
  unfold trainer_inv, fresh_trainer; cbn.
  repeat split; auto; discriminate.
Qed.

Lemma call_preserves_inv fw T O g ss lt am t c p y li r w' :
  lt = "xentropy" \/ lt = "l2" ->
  trainer_inv T O g ss lt am t ->
  call fw p y li (mkWorld t c) = (r, w') ->
  trainer_inv T O g ss lt am (self w').
Proof.
  intros Hlt Hinv Hc.
  destruct (graphCreated t) eqn:Hg.
  { pose proof (call_created_world fw t c p y li Hg) as Hw.
    rewrite Hc in Hw. simpl in Hw. subst w'. exact Hinv. }
  destruct Hinv as
    (HT & HO & Hgr & Hss & Hlt' & Hopt & Ham & H1 & H2 & H3 & H4).
  destruct (validate_checks t p y li) as [[]|e] eqn:Hv.
  2:{ rewrite (call_validation_fails fw t c p y li e Hg Hv) in Hc.
      inversion Hc; subst. simpl. unfold trainer_inv. auto 15. }
  destruct g as [g0|].
  { rewrite (call_with_graph fw t c p y li g0 Hg Hv Hgr) in Hc.
    inversion Hc; subst. unfold trainer_inv; cbn.
    repeat split; auto; try congruence.
    - apply H4; discriminate.
    - apply H4; discriminate. }
  pose proof Hv as Hv'. apply validate_checks_ok in Hv' as [_ Hi].
  destruct (validate_indicator_start _ _ Hi) as (idx & Hidx & _).
  assert (Hlt2 : lossType t = "xentropy" \/ lossType t = "l2")
    by (rewrite Hlt'; exact Hlt).
  rewrite (call_builds_eq fw t c p y li idx Hg Hgr Hlt2 Hv Hidx) in Hc.
  destruct (add_nodes fw (target_nodes _ y ++ _) c) as [[n1|] c1].
  { inversion Hc; subst. unfold trainer_inv; cbn.
    repeat split; auto; try congruence. }
  destruct (add_nodes fw (loss_nodes _ _ _ p y li idx) c1) as [[n2|] c2].
  { inversion Hc; subst. unfold trainer_inv; cbn.
    repeat split; auto; try congruence. }
  destruct (add_node fw _ c2) as [[n3|] c3].
  { inversion Hc; subst. unfold trainer_inv; cbn.
    repeat split; auto; try congruence. }
  inversion Hc; subst. unfold trainer_inv; cbn.
  repeat split; auto; try congruence. eauto.
Qed.

Lemma evolves_inv fw T O g ss lt am w0 w :
  lt = "xentropy" \/ lt = "l2" ->
  trainer_inv T O g ss lt am (self w0) ->
  evolves fw w0 w ->
  trainer_inv T O g ss lt am (self w).
Proof.
  intros Hlt H0 Hev.
  induction Hev as [w | w1 w2 p y li r w3 Hev IH Hc | w1 w2 r w3 Hev IH Hc].
  - exact H0.
  - destruct w2 as [t2 c2].
    apply (call_preserves_inv fw T O g ss lt am t2 c2 p y li r w3 Hlt);
      [|exact Hc].
    apply IH. exact H0.
  - destruct w2 as [t2 c2]. rewrite createOpCollections_unfold in Hc.
    inversion Hc; subst. simpl. apply IH. exact H0.
Qed.

Lemma init_evolves_inv fw T O g ss lt opt am t c w :
  init T O g ss lt opt am = Ok t ->
  evolves fw (mkWorld t c) w ->
  (lt = "xentropy" \/ lt = "l2") /\ opt = "Adam" /\
  trainer_inv T O g ss lt am (self w).
Proof.
  intros Hinit Hev. apply init_ok_inv in Hinit as (-> & Hlt & ->).
  split; [exact Hlt|]. split; [reflexivity|].
  apply (evolves_inv fw T O g ss lt am
           (mkWorld (fresh_trainer T O g ss lt am) c) w Hlt); [|exact Hev].
  simpl. apply fresh_trainer_inv.
Qed.

Lemma reachable_inv fw w :
  reachable fw w ->
  exists T O g ss lt am,
    (lt = "xentropy" \/ lt = "l2") /\ trainer_inv T O g ss lt am (self w).
Proof.
  induction 1 as [T O g ss lt opt am t c Hinit
                 | w p y li r w' Hw IH Hcall
                 | w r w' Hw IH Hcoll].
  - apply init_ok_inv in Hinit as (-> & Hlt & ->).
    exists T, O, g, ss, lt, am. split; [exact Hlt|]. apply fresh_trainer_inv.
  - destruct IH as (T & O & g & ss & lt & am & Hlt & Hinv).
    exists T, O, g, ss, lt, am. split; [exact Hlt|].
    destruct w as [t c].
    exact (call_preserves_inv fw T O g ss lt am t c p y li r w' Hlt Hinv
             Hcall).
  - destruct IH as (T & O & g & ss & lt & am & Hlt & Hinv).
    exists T, O, g, ss, lt, am. split; [exact Hlt|].
    destruct w as [t c]. rewrite createOpCollections_unfold in Hcoll.
    inversion Hcoll; subst. exact Hinv.
Qed.

(** Whenever the graph is marked as created, both handles are set. *)
Lemma reachable_handles fw w :
  reachable fw w -> graphCreated (self w) = true ->
  exists l tr, lossOp (self w) = Some l /\ trainOp (self w) = Some tr.
Proof.
  intros Hr Hg.
  destruct (reachable_inv fw w Hr) as (T & O & g & ss & lt & am & _ & Hinv).
  destruct Hinv as (_ & _ & _ & _ & _ & _ & _ & H1 & _).
  destruct (H1 Hg) as (_ & _ & l & li & Hl & Htr & _). eauto.
Qed.

(** ** Calls after the graph is created *)

(** C9. Once the graph is created, every further call returns the pair of
    handles the trainer holds and changes nothing, whatever its arguments:
    they are not validated, so inputs that fail the shape checks are
    accepted as well. *)
Theorem call_after_creation_returns_cached fw w :
  reachable fw w -> graphCreated (self w) = true ->
  exists l tr,
    lossOp (self w) = Some l /\ trainOp (self w) = Some tr /\
    forall p y li, call fw p y li w = (Ok (Some l, Some tr), w).
Proof.
  intros Hr Hg.
  destruct (reachable_handles fw w Hr Hg) as (l & tr & Hl & Htr).
  exists l, tr. repeat split; try assumption.
  intros p y li. destruct w as [t c]. apply call_created; assumption.
Qed.

Lemma call_after_creation_returns_cached_witness :
  exists l tr,
    lossOp (self (snd (call accepting_framework ex_predicted ex_target
                         ex_indicator
                         (mkWorld (ex_trainer None "l2" true)
                                  no_collections)))) = Some l /\
    trainOp (self (snd (call accepting_framework ex_predicted ex_target
                          ex_indicator
                          (mkWorld (ex_trainer None "l2" true)
                                   no_collections)))) = Some tr /\
    forall p y li,
      call accepting_framework p y li
           (snd (call accepting_framework ex_predicted ex_target ex_indicator
                   (mkWorld (ex_trainer None "l2" true) no_collections))) =
      (Ok (Some l, Some tr),
       snd (call accepting_framework ex_predicted ex_target ex_indicator
              (mkWorld (ex_trainer None "l2" true) no_collections))).
Proof.
  apply call_after_creation_returns_cached.
  - eapply reach_call.
    + apply (reach_init accepting_framework 2 3 None (1 # 1000) "l2" "Adam"
               true). reflexivity.
    + apply surjective_pairing.
  - reflexivity.
Defined.

Example second_call_skips_validation :
  validate_checks (ex_trainer None "l2" true) ex_predicted ex_target_1d
                  ex_indicator_1d = Raise IndexError /\
  fst (call accepting_framework ex_predicted ex_target_1d ex_indicator_1d
         (snd (call accepting_framework ex_predicted ex_target ex_indicator
                 (mkWorld (ex_trainer None "l2" true) no_collections)))) =
  fst (call accepting_framework ex_predicted ex_target ex_indicator
         (mkWorld (ex_trainer None "l2" true) no_collections)).
Proof. split; reflexivity. Qed.

(** ** Failed validation *)

(** C10. When the first call on a constructed trainer raises an assertion
    failure, the failure comes from input validation and the world is as
    before the call: the graph is not created, both handles are unset and
    the valid-init flag is off, so a later call behaves as a first call. *)
Theorem validation_failure_is_atomic
    fw T O g ss lt opt am t c p y li m w' :
  init T O g ss lt opt am = Ok t ->
  call fw p y li (mkWorld t c) = (Raise (AssertionError m), w') ->
  validate_checks t p y li = Raise (AssertionError m) /\
  w' = mkWorld t c /\
  graphCreated (self w') = false /\
  lossOp (self w') = None /\
  trainOp (self w') = None /\
  validInit (self w') = false /\
  forall p' y' li', call fw p' y' li' w' = call fw p' y' li' (mkWorld t c).
Proof.
  intros Hinit Hc.
  apply init_ok_inv in Hinit as (-> & Hlt & ->).
  change (call fw p y li (mkWorld (fresh_trainer T O g ss lt am) c) =
          (Raise (AssertionError m), w')) in Hc.
  assert (H : validate_checks (fresh_trainer T O g ss lt am) p y li =
              Raise (AssertionError m) /\
              w' = mkWorld (fresh_trainer T O g ss lt am) c).
  { destruct (validate_checks (fresh_trainer T O g ss lt am) p y li)
      as [[]|e] eqn:Hv.
    - exfalso. destruct g as [g0|].
      + rewrite (call_with_graph fw (fresh_trainer T O (Some g0) ss lt am)
                   c p y li g0 eq_refl Hv eq_refl) in Hc. discriminate.
      + pose proof Hv as Hv'. apply validate_checks_ok in Hv' as [_ Hi].
        destruct (validate_indicator_start _ _ Hi) as (idx & Hidx & _).
        destruct (add_nodes fw (graph_nodes T O ss lt p y li idx) c)
          as [[name|] c'] eqn:Hadd.
        * destruct (call_refused fw (fresh_trainer T O None ss lt am) c p y
                      li idx name c' eq_refl eq_refl Hlt Hv Hidx Hadd)
            as (t' & Hc' & _).
          rewrite Hc' in Hc. discriminate.
        * rewrite (call_accepted fw (fresh_trainer T O None ss lt am) c p y
                     li idx c' eq_refl eq_refl Hlt Hv Hidx Hadd) in Hc.
          discriminate.
    - rewrite (call_validation_fails fw (fresh_trainer T O g ss lt am)
                 c p y li e eq_refl Hv) in Hc.
      inversion Hc; subst. auto. }
  destruct H as [Hv ->].
  repeat split; try reflexivity. exact Hv.
Qed.

Lemma validation_failure_is_atomic_witness :
  validate_checks (ex_trainer None "l2" true) ex_predicted ex_target
                  ex_indicator_1d = Raise (AssertionError msg_indicator) /\
  mkWorld (ex_trainer None "l2" true) no_collections =
    mkWorld (ex_trainer None "l2" true) no_collections /\
  graphCreated
    (self (mkWorld (ex_trainer None "l2" true) no_collections)) = false /\
  lossOp (self (mkWorld (ex_trainer None "l2" true) no_collections)) = None /\
  trainOp (self (mkWorld (ex_trainer None "l2" true) no_collections)) = None /\
  validInit
    (self (mkWorld (ex_trainer None "l2" true) no_collections)) = false /\
  forall p' y' li',
    call broadcast_framework p' y' li'
         (mkWorld (ex_trainer None "l2" true) no_collections) =
    call broadcast_framework p' y' li'
         (mkWorld (ex_trainer None "l2" true) no_collections).
Proof.
  apply (validation_failure_is_atomic broadcast_framework 2 3 None
           (1 # 1000) "l2" "Adam" true
           (ex_trainer None "l2" true) no_collections ex_predicted ex_target
           ex_indicator_1d msg_indicator); reflexivity.
Defined.

(** ** Inputs on which validation fails outside its assertions *)

(** C2. With a prediction of the right shape and a target that has a
    single axis, the call raises an index error, not an assertion failure:
    the second extent of the target is read before its rank is checked. *)
Theorem call_target_1d_raises_index_error fw :
  call fw ex_predicted ex_target_1d ex_indicator
       (mkWorld (ex_trainer None "l2" true) no_collections) =
  (Raise IndexError, mkWorld (ex_trainer None "l2" true) no_collections).
Proof. reflexivity. Qed.

(** C3. With tensors that pass the shape checks and a 2-d indicator that
    has two rows and no columns, the call raises an index error, not an
    assertion failure with the indicator message: the search for the start
    reads the first column of a row that has none. *)
Theorem call_indicator_no_cols_raises_index_error fw :
  validate_shapes (ex_trainer None "l2" true) ex_predicted ex_target = Ok tt /\
  ndim ex_indicator_nocols = 2%nat /\
  nd_wf ex_indicator_nocols /\
  call fw ex_predicted ex_target ex_indicator_nocols
       (mkWorld (ex_trainer None "l2" true) no_collections) =
  (Raise IndexError, mkWorld (ex_trainer None "l2" true) no_collections).
Proof. repeat split; reflexivity. Qed.

(** Violated shape conditions are reported as assertion failures as long as
    the target has at least two axes. *)
Lemma shape_violation_raises_assertion t p y :
  validate_shapes t p y <> Ok tt ->
  (2 <= length (t_shape y))%nat ->
  exists m, validate_shapes t p y = Raise (AssertionError m).
Proof.
  intros Hne Hlen.
  destruct (validate_shapes t p y) as [[]|e] eqn:Hv; [congruence|].
  destruct (validate_shapes_raise _ _ _ _ Hv) as [[m ->] | [_ Hlt]];
    [eauto | lia].
Qed.

(** A rejected indicator is reported with the indicator message unless it
    is a 2-d array with rows and no columns. *)
Lemma indicator_rejection_raises_assertion t li :
  ~ indicator_accepted (numOutput t) li ->
  (forall r, nd_shape li <> [S r; 0%nat]) ->
  validate_indicator t li = Raise (AssertionError msg_indicator).
Proof.
  intros Hna Hcols.
  destruct (validate_indicator t li) as [[]|e] eqn:Hv.
  - exfalso. apply Hna. apply validate_indicator_iff. exact Hv.
  - destruct (validate_indicator_raise _ _ _ Hv) as [-> | [_ [r Hs]]];
      [reflexivity|].
    exfalso. exact (Hcols r Hs).
Qed.

(** ** Training *)

Section TrainingFacts.

Context {Session Val Feed : Type}.
Variable sess_run :
  Session -> list (option Node) -> option Feed -> result (list Val) * Session.
Variable t : Trainer.
Variable redirFile : option string.
Variable echoInterval : Z.
Variable echoCB_ : option (Callback Session Val Feed).
Variable feedDict : option Feed.

Lemma ending_returned e : ending e = Returned <-> e = OutOfRangeError.
Proof. destruct e; simpl; split; intros H; congruence. Qed.

Lemma ending_raised e : e <> OutOfRangeError -> ending e = Raised e.
Proof. destruct e; simpl; intros H; congruence. Qed.

(** The statements under [try] are one batch as described. *)
Lemma try_body_schedule k st :
  echoInterval <> 0 ->
  try_body sess_run t redirFile echoInterval
           (match echoCB_ with
            | Some cb => cb
            | None => echoCB sess_run t
            end) feedDict k st
  = batch_step sess_run t redirFile echoInterval echoCB_ feedDict k st.
Proof.
  intros Hne. unfold try_body, batch_step.
  destruct (echoInterval =? 0) eqn:E; [apply Z.eqb_eq in E; contradiction|].
  destruct (Z.eq_dec (k mod echoInterval) 0) as [H0|H0].
  - rewrite H0. simpl. destruct echoCB_; reflexivity.
  - apply Z.eqb_neq in H0. rewrite H0. reflexivity.
Qed.

Lemma trainModel_loop_step fuel cb k st :
  trainModel_loop sess_run (S fuel) t redirFile echoInterval cb feedDict k st
  = match try_body sess_run t redirFile echoInterval cb feedDict k st with
    | (Ok _, st') =>
        trainModel_loop sess_run fuel t redirFile echoInterval cb feedDict
                        (k + 1) st'
    | (Raise e, st') => (ending e, k, st')
    end.
Proof.
  simpl. destruct (try_body _ _ _ _ _ _ _ _) as [[[]|e] st'];
    [reflexivity|]. destruct e; reflexivity.
Qed.

Lemma trainModel_unfold fuel st :
  trainModel sess_run fuel t redirFile echoInterval echoCB_ feedDict st =
  trainModel_loop sess_run fuel t redirFile echoInterval
    (match echoCB_ with
     | Some cb => cb
     | None => echoCB sess_run t
     end) feedDict 0 st.
Proof. unfold trainModel. destruct echoCB_; reflexivity. Qed.

(** Enough fuel: [n] good batches and a failing one end the loop. *)
Lemma trainModel_loop_complete n : forall k st stn e st' fuel,
  echoInterval <> 0 ->
  batches sess_run t redirFile echoInterval echoCB_ feedDict n k st stn ->
  batch_step sess_run t redirFile echoInterval echoCB_ feedDict
             (k + Z.of_nat n) stn = (Raise e, st') ->
  (n < fuel)%nat ->
  trainModel_loop sess_run fuel t redirFile echoInterval
    (match echoCB_ with
     | Some cb => cb
     | None => echoCB sess_run t
     end) feedDict k st
  = (ending e, k + Z.of_nat n, st').
Proof.
  induction n as [|n IH]; intros k st stn e st' fuel Hne Hb Hfail Hfuel;
    (destruct fuel as [|fuel]; [lia|]);
    rewrite trainModel_loop_step, try_body_schedule by exact Hne;
    inversion Hb; subst.
  - rewrite Z.add_0_r in Hfail. rewrite Hfail.
    rewrite Z.add_0_r. reflexivity.
  - match goal with
    | H : batch_step _ _ _ _ _ _ k st = _ |- _ => rewrite H
    end.
    replace (k + Z.of_nat (S n)) with (k + 1 + Z.of_nat n) in * by lia.
    eapply IH; eauto. lia.
Qed.

(** Whatever the loop answers, it went through good batches only, and
    stopped on the first failing one unless the fuel ran out. *)
Lemma trainModel_loop_sound fuel : forall k st out kf st',
  echoInterval <> 0 ->
  trainModel_loop sess_run fuel t redirFile echoInterval
    (match echoCB_ with
     | Some cb => cb
     | None => echoCB sess_run t
     end) feedDict k st = (out, kf, st') ->
  match out with
  | OutOfFuel =>
      kf = k + Z.of_nat fuel /\
      batches sess_run t redirFile echoInterval echoCB_ feedDict fuel k st st'
  | _ =>
      exists n stn e,
        (n < fuel)%nat /\ kf = k + Z.of_nat n /\
        batches sess_run t redirFile echoInterval echoCB_ feedDict n k st stn
        /\
        batch_step sess_run t redirFile echoInterval echoCB_ feedDict kf stn
          = (Raise e, st') /\
        out = ending e
  end.
Proof.
  induction fuel as [|fuel IH]; intros k st out kf st' Hne H.
  - simpl in H. inversion H; subst. split; [lia | constructor].
  - rewrite trainModel_loop_step, try_body_schedule in H by exact Hne.
    destruct (batch_step _ _ _ _ _ _ k st) as [[[]|e] st1] eqn:Hstep.
    + apply IH in H; [|exact Hne]. destruct out.
      * destruct H as (n & stn & e & Hn & -> & Hb & Hf & He).
        exists (S n), stn, e. repeat split; try lia; try assumption.
        econstructor; eassumption.
      * destruct H as (n & stn & e0 & Hn & -> & Hb & Hf & He).
        exists (S n), stn, e0. repeat split; try lia; try assumption.
        econstructor; eassumption.
      * destruct H as [-> Hb]. split; [lia|].
        econstructor; eassumption.
    + inversion H; subst.
      assert (Hex : exists n stn e0,
                 (n < S fuel)%nat /\ kf = kf + Z.of_nat n /\
                 batches sess_run t redirFile echoInterval echoCB_ feedDict
                         n kf st stn /\
                 batch_step sess_run t redirFile echoInterval echoCB_
                            feedDict kf stn = (Raise e0, st') /\
                 ending e = ending e0).
      { exists 0%nat, st, e. repeat split; try lia; try assumption.
        constructor. }
      destruct e; simpl; exact Hex.
Qed.

End TrainingFacts.

(** With a zero echo interval the first iteration already fails on the
    remainder, before any run. *)
Lemma trainModel_zero_interval {Session Val Feed : Type}
    (sess_run : Session -> list (option Node) -> option Feed ->
                result (list Val) * Session)
    fuel t redirFile cb feedDict st :
  trainModel sess_run (S fuel) t redirFile 0 cb feedDict st =
  (Raised ZeroDivisionError, 0, st).
Proof. reflexivity. Qed.

(** C5. With a non-zero echo interval, a training pass runs the batches in
    order.  Batch [k] is: when [k] is a multiple of the interval, the echo
    callback, which by default is one run of the session fetching the
    train step and the loss together followed by one printed line;
    otherwise one run fetching the train step alone.  The counter ends on
    the number of batches that succeeded; the pass returns normally
    exactly when the first failing batch raised the end-of-data error, and
    any other exception comes out of it. *)
Theorem trainModel_runs_until_out_of_range {Session Val Feed : Type}
    (sess_run : Session -> list (option Node) -> option Feed ->
                result (list Val) * Session)
    t redirFile echoInterval (echoCB_ : option (Callback Session Val Feed))
    feedDict (st0 : TState Session Val) :
  echoInterval <> 0 ->
  (forall k st,
     try_body sess_run t redirFile echoInterval
              (match echoCB_ with
               | Some cb => cb
               | None => echoCB sess_run t
               end) feedDict k st =
     if Z.eq_dec (k mod echoInterval) 0
     then match echoCB_ with
          | Some cb => cb feedDict k redirFile st
          | None =>
              match sess_run (session st) [trainOp t; lossOp t] feedDict with
              | (Ok [_; loss], s') =>
                  (Ok tt,
                   mkTState s' (printed st ++ [(redirFile, k, loss)])%list)
              | (Ok _, s') => (Raise ValueError, mkTState s' (printed st))
              | (Raise e, s') => (Raise e, mkTState s' (printed st))
              end
          end
     else match sess_run (session st) [trainOp t] feedDict with
          | (Ok _, s') => (Ok tt, mkTState s' (printed st))
          | (Raise e, s') => (Raise e, mkTState s' (printed st))
          end) /\
  (forall n stn e st' fuel,
     batches sess_run t redirFile echoInterval echoCB_ feedDict n 0 st0 stn ->
     batch_step sess_run t redirFile echoInterval echoCB_ feedDict
                (Z.of_nat n) stn = (Raise e, st') ->
     (n < fuel)%nat ->
     trainModel sess_run fuel t redirFile echoInterval echoCB_ feedDict st0 =
     (ending e, Z.of_nat n, st')) /\
  (forall fuel kf st',
     trainModel sess_run fuel t redirFile echoInterval echoCB_ feedDict st0 =
     (Returned, kf, st') ->
     exists n stn,
       kf = Z.of_nat n /\
       batches sess_run t redirFile echoInterval echoCB_ feedDict n 0 st0 stn
       /\
       batch_step sess_run t redirFile echoInterval echoCB_ feedDict kf stn
         = (Raise OutOfRangeError, st')) /\
  (forall fuel e kf st',
     trainModel sess_run fuel t redirFile echoInterval echoCB_ feedDict st0 =
     (Raised e, kf, st') ->
     e <> OutOfRangeError /\
     exists n stn,
       kf = Z.of_nat n /\
       batches sess_run t redirFile echoInterval echoCB_ feedDict n 0 st0 stn
       /\
       batch_step sess_run t redirFile echoInterval echoCB_ feedDict kf stn
         = (Raise e, st')) /\
  (forall e, ending e = Returned <-> e = OutOfRangeError).
Proof.
  intros Hne. split; [|split; [|split; [|split]]].
  - intros k st. rewrite try_body_schedule by exact Hne. reflexivity.
  - intros n stn e st' fuel Hb Hf Hfuel. rewrite trainModel_unfold.
    rewrite (trainModel_loop_complete sess_run t redirFile echoInterval
               echoCB_ feedDict n 0 st0 stn e st' fuel Hne Hb Hf Hfuel).
    reflexivity.
  - intros fuel kf st' H. rewrite trainModel_unfold in H.
    apply trainModel_loop_sound in H; [|exact Hne].
    destruct H as (n & stn & e & _ & -> & Hb & Hf & He).
    symmetry in He. apply ending_returned in He. subst e.
    exists n, stn. auto.
  - intros fuel e kf st' H. rewrite trainModel_unfold in H.
    apply trainModel_loop_sound in H; [|exact Hne].
    destruct H as (n & stn & e0 & _ & -> & Hb & Hf & He).
    assert (Hne0 : e0 <> OutOfRangeError).
    { intros ->. simpl in He. discriminate. }
    rewrite (ending_raised e0 Hne0) in He. inversion He; subst e0.
    split; [exact Hne0|]. exists n, stn. auto.
  - intros e. apply ending_returned.
Qed.

Lemma trainModel_runs_until_out_of_range_witness :
  2 <> 0 /\
  trainModel ex_sess_run 10 (ex_trainer None "l2" true) None 2 None None
             (mkTState 3%nat []) =
  (Returned, 3, mkTState 0%nat [(None, 0, 7); (None, 2, 7)]).
Proof.
  split; [discriminate|].
  destruct (trainModel_runs_until_out_of_range ex_sess_run
              (ex_trainer None "l2" true) None 2 None None
              (mkTState 3%nat []))
    as (_ & H & _); [discriminate|].
  apply (H 3%nat (mkTState 0%nat [(None, 0, 7); (None, 2, 7)])
           OutOfRangeError).
  - eapply batches_cons; [reflexivity|].
    eapply batches_cons; [reflexivity|].
    eapply batches_cons; [reflexivity|].
    apply batches_nil.
  - reflexivity.
  - lia.
Defined.

Example trainModel_other_exception_propagates :
  trainModel ex_sess_broken 10 (ex_trainer None "l2" true) None 2 None None
             (mkTState 0%nat []) =
  (Raised (FrameworkError "InternalError"), 1,
   mkTState 2%nat [(None, 0, 7)]).
Proof. reflexivity. Qed.

(** * Further properties of the trainer *)

(** ** What validation accepts and how it fails *)

(** X1. Validation passes exactly on a prediction of shape
    [b, s, numTimeSteps, numOutput], a target of shape [b', s, numOutput]
    with the same [s], and an accepted indicator; the two leading extents
    are free. *)
Theorem validation_passes_iff t p y li :
  validate_checks t p y li = Ok tt <->
  (exists b s b',
     t_shape p = [b; s; numTimeSteps t; numOutput t] /\
     t_shape y = [b'; s; numOutput t]) /\
  indicator_accepted (numOutput t) li.
Proof.
  rewrite validate_checks_ok, validate_shapes_iff, validate_indicator_iff.
  split.
  - intros [(b & s & b' & s' & Hp & Hy & ->) Hi]. split; [|exact Hi].
    exists b, s', b'. auto.
  - intros [(b & s & b' & Hp & Hy) Hi]. split; [|exact Hi].
    exists b, s, b', s. auto.
Qed.

(** X2. The shape checks raise an index error exactly when the prediction
    passes its own checks and the target has fewer than two axes. *)
Theorem shape_checks_index_error_iff t p y :
  validate_shapes t p y = Raise IndexError <->
  (exists b s, t_shape p = [b; s; numTimeSteps t; numOutput t]) /\
  (length (t_shape y) < 2)%nat.
Proof.
  unfold validate_shapes, shape_at. split.
  - intros H.
    apply rbind_raise in H as [H | [[] [H4 H]]];
      [apply assert_raise in H as [_ H]; discriminate|].
    apply assert_ok, Nat.eqb_eq in H4.
    destruct (t_shape p) as [|b [|s [|ts [|o [|x l]]]]]; try discriminate.
    simpl in H.
    apply rbind_raise in H as [H | [[] [Ho H]]];
      [apply assert_raise in H as [_ H]; discriminate|].
    apply assert_ok, Z.eqb_eq in Ho.
    apply rbind_raise in H as [H | [[] [Ht H]]];
      [apply assert_raise in H as [_ H]; discriminate|].
    apply assert_ok, Z.eqb_eq in Ht. subst.
    split; [eauto|].
    destruct (t_shape y) as [|b' [|s' l']]; simpl; try lia.
    exfalso. simpl in H.
    apply rbind_raise in H as [H | [[] [_ H]]];
      [apply assert_raise in H as [_ H]; discriminate|].
    apply rbind_raise in H as [H | [[] [H3 H]]];
      [apply assert_raise in H as [_ H]; discriminate|].
    apply assert_ok, Nat.eqb_eq in H3.
    destruct l' as [|o' [|x' l']]; try discriminate.
    simpl in H. apply assert_raise in H as [_ H]. discriminate.
  - intros [(b & s & ->) Hlen]. simpl. rewrite !Z.eqb_refl. simpl.
    destruct (t_shape y) as [|b' [|s' l']]; simpl in *; try reflexivity.
    lia.
Qed.

(** X3. The shape checks fail with an assertion that carries no message
    exactly when the prediction passes its checks, the target has at least
    two axes and the matching sub-instance extent, and the rest of the
    target's shape is not the single extent numOutput. *)
Theorem shape_checks_bare_assertion_iff t p y :
  validate_shapes t p y = Raise (AssertionError None) <->
  exists b s b' rest,
    t_shape p = [b; s; numTimeSteps t; numOutput t] /\
    t_shape y = b' :: s :: rest /\
    rest <> [numOutput t].
Proof.
  unfold validate_shapes, shape_at, msg_dims. split.
  - intros H.
    apply rbind_raise in H as [H | [[] [H4 H]]];
      [apply assert_raise in H as [_ H]; discriminate|].
    apply assert_ok, Nat.eqb_eq in H4.
    destruct (t_shape p) as [|b [|s [|ts [|o [|x l]]]]]; try discriminate.
    simpl in H.
    apply rbind_raise in H as [H | [[] [Ho H]]];
      [apply assert_raise in H as [_ H]; discriminate|].
    apply assert_ok, Z.eqb_eq in Ho.
    apply rbind_raise in H as [H | [[] [Ht H]]];
      [apply assert_raise in H as [_ H]; discriminate|].
    apply assert_ok, Z.eqb_eq in Ht. subst.
    destruct (t_shape y) as [|b' [|s' l']]; simpl in H; try discriminate.
    apply rbind_raise in H as [H | [[] [Hs H]]];
      [apply assert_raise in H as [_ H]; discriminate|].
    apply assert_ok, Z.eqb_eq in Hs. subst s'.
    exists b, s, b', l'. repeat split.
    intros ->. simpl in H. rewrite Z.eqb_refl in H. discriminate.
  - intros (b & s & b' & rest & -> & -> & Hrest). simpl.
    rewrite !Z.eqb_refl. simpl.
    destruct rest as [|o [|x rest]]; simpl; try reflexivity.
    destruct (o =? numOutput t) eqn:E; [|reflexivity].
    apply Z.eqb_eq in E. subst o. contradiction.
Qed.

(** ** The indicator start *)

(** A search that ends on a negative index saw no row starting with 1. *)
Lemma find_loop_none a n : forall s z,
  findIndicatorStart_loop a (seq s n) = Ok z -> z < 0 ->
  z = -1 /\ forall j, (s <= j < s + n)%nat -> getitem2 a j 0 <> Ok 1.
Proof.
  induction n as [|n IH]; intros s z H Hz; simpl in H.
  - inversion H. split; [reflexivity | intros j Hj; lia].
  - destruct (getitem2 a s 0) as [x|e] eqn:Hx; simpl in H; [|discriminate].
    destruct (x =? 1) eqn:Hx1.
    + inversion H. lia.
    + apply Z.eqb_neq in Hx1. destruct (IH _ _ H Hz) as [-> Hall].
      split; [reflexivity|]. intros j Hj.
      destruct (Nat.eq_dec j s) as [->|Hne].
      * rewrite Hx. congruence.
      * apply Hall. lia.
Qed.

(** X4. On a 2-d array with at least one column the search for the
    indicator start never fails: it returns the least row whose first entry
    is 1, or -1 when no row starts with 1 (in particular when there are no
    rows). *)
Theorem findIndicatorStart_least_or_minus_one li r c :
  nd_shape li = [r; S c] ->
  (exists i, (i < r)%nat /\ indicator_start li i /\
             findIndicatorStart li = Ok (Z.of_nat i)) \/
  ((forall i, (i < r)%nat -> getitem2 li i 0 <> Ok 1) /\
   findIndicatorStart li = Ok (-1)).
Proof.
  intros Hs.
  assert (Hd : ndim li = 2%nat) by (unfold ndim; rewrite Hs; reflexivity).
  assert (Hlen : nd_len li = r) by (unfold nd_len; rewrite Hs; reflexivity).
  rewrite (findIndicatorStart_2d li Hd), Hlen.
  destruct (findIndicatorStart_loop li (seq 0 r)) as [z|e] eqn:Hloop.
  - destruct (Z_lt_le_dec z 0) as [Hneg|Hpos].
    + right. destruct (find_loop_none _ _ _ _ Hloop Hneg) as [-> Hall].
      split; [|reflexivity]. intros i Hi. apply Hall. lia.
    + left. destruct (find_loop_found _ _ _ _ Hloop Hpos)
        as (i & -> & Hi & Hg & Hmin).
      exists i. split; [lia|]. split; [|reflexivity].
      split; [exact Hg|]. intros j Hj. apply Hmin. lia.
  - exfalso. destruct (find_loop_raise _ _ _ _ Hloop) as (_ & i & Hi & Hg).
    rewrite (getitem2_in_range li r (S c) i 0%nat Hs) in Hg by lia.
    discriminate.
Qed.

Lemma findIndicatorStart_least_or_minus_one_witness :
  (exists i, (i < 2)%nat /\ indicator_start ex_indicator i /\
             findIndicatorStart ex_indicator = Ok (Z.of_nat i)) \/
  ((forall i, (i < 2)%nat -> getitem2 ex_indicator i 0 <> Ok 1) /\
   findIndicatorStart ex_indicator = Ok (-1)).
Proof.
  apply (findIndicatorStart_least_or_minus_one ex_indicator 2 2).
  reflexivity.
Defined.

(** X5. The indicator checks raise an index error exactly on a 2-d array
    that has rows and no columns. *)
Theorem indicator_checks_index_error_iff t li :
  validate_indicator t li = Raise IndexError <->
  exists r, nd_shape li = [S r; 0%nat].
Proof.
  split.
  - intros H. destruct (validate_indicator_raise _ _ _ H) as [He | [_ Hs]];
      [discriminate | exact Hs].
  - intros [r Hs]. exact (validate_indicator_no_cols t li r Hs).
Qed.

(** ** Accepted masks *)

Lemma sum_repeat x n : fold_right Z.add 0 (repeat x n) = Z.of_nat n * x.
Proof.
  induction n as [|n IH]; [reflexivity|].
  simpl repeat. simpl fold_right. lia.
Qed.

Lemma sum_app (l1 l2 : list Z) :
  fold_right Z.add 0 (l1 ++ l2) =
  fold_right Z.add 0 l1 + fold_right Z.add 0 l2.
Proof. induction l1 as [|x l1 IH]; simpl; lia. Qed.

Lemma binary_sum_bounds (l : list Z) :
  Forall (fun x => x = 0 \/ x = 1) l ->
  0 <= fold_right Z.add 0 l <= Z.of_nat (length l).
Proof.
  induction 1 as [|x l Hx _ IH]; simpl; [lia|].
  destruct Hx as [-> | ->]; lia.
Qed.

Lemma binary_sum_zero (l : list Z) :
  Forall (fun x => x = 0 \/ x = 1) l ->
  fold_right Z.add 0 l = 0 -> l = repeat 0 (length l).
Proof.
  induction 1 as [|x l Hx Hl IH]; simpl; intros Hs; [reflexivity|].
  pose proof (binary_sum_bounds l Hl) as Hb.
  destruct Hx as [-> | ->]; [|lia]. f_equal. apply IH. lia.
Qed.

Lemma binary_sum_full (l : list Z) :
  Forall (fun x => x = 0 \/ x = 1) l ->
  fold_right Z.add 0 l = Z.of_nat (length l) -> l = repeat 1 (length l).
Proof.
  induction 1 as [|x l Hx Hl IH]; simpl length; simpl fold_right;
    intros Hs; [reflexivity|].
  pose proof (binary_sum_bounds l Hl) as Hb.
  destruct Hx as [-> | ->]; [lia|]. simpl. f_equal. apply IH. lia.
Qed.

Lemma nth_repeat_in (x d : Z) m : forall n,
  (n < m)%nat -> nth n (repeat x m) d = x.
Proof.
  induction m as [|m IH]; intros n Hn; [lia|].
  destruct n as [|n]; simpl; [reflexivity|]. apply IH. lia.
Qed.

Lemma firstn_app_len {A} (l1 l2 : list A) n :
  n = length l1 -> firstn n (l1 ++ l2) = l1.
Proof.
  intros ->. induction l1 as [|x l1 IH]; simpl.
  - destruct l2; reflexivity.
  - f_equal. exact IH.
Qed.

Lemma skipn_app_len {A} (l1 l2 : list A) n :
  n = length l1 -> skipn n (l1 ++ l2) = l2.
Proof. intros ->. induction l1 as [|x l1 IH]; simpl; auto. Qed.

Lemma clamp_bound_in n k :
  (k <= n)%nat -> clamp_bound n (Z.of_nat k) = k.
Proof.
  intros Hk. unfold clamp_bound.
  destruct (Z.of_nat k <? 0) eqn:E; [apply Z.ltb_lt in E; lia|].
  rewrite Nat2Z.id. lia.
Qed.

(** The step masks are accepted. *)
Lemma step_mask_accepted r c idx :
  (idx < r)%nat ->
  indicator_accepted (Z.of_nat (S c)) (step_mask r (S c) idx).
Proof.
  intros Hidx. unfold indicator_accepted. split; [reflexivity|].
  exists idx.
  assert (Hs : nd_shape (step_mask r (S c) idx) = [r; S c]) by reflexivity.
  assert (Hones : (0 < (r - idx) * S c)%nat) by nia.
  split; [split|split].
  - rewrite (getitem2_in_range _ r (S c) idx 0%nat Hs) by lia.
    f_equal. simpl nd_data.
    rewrite app_nth2 by (rewrite repeat_length; lia).
    apply nth_repeat_in. rewrite repeat_length. lia.
  - intros j Hj.
    rewrite (getitem2_in_range _ r (S c) j 0%nat Hs) by lia.
    simpl nd_data.
    rewrite app_nth1 by (rewrite repeat_length; nia).
    rewrite nth_repeat_in by nia. discriminate.
  - unfold np_sum, slice_to, nd_len, row_size. simpl nd_shape. simpl hd.
    simpl tl. simpl fold_right at 2.
    rewrite clamp_bound_in by lia. simpl nd_data.
    rewrite Nat.mul_1_r.
    rewrite firstn_app_len by (rewrite repeat_length; reflexivity).
    rewrite sum_repeat. lia.
  - unfold np_sum, slice_from, nd_len, row_size. simpl nd_shape. simpl hd.
    simpl tl. simpl fold_right at 2.
    rewrite clamp_bound_in by lia. simpl nd_data.
    rewrite Nat.mul_1_r.
    rewrite skipn_app_len by (rewrite repeat_length; reflexivity).
    rewrite sum_repeat. nia.
Qed.

(** X6. For a well-formed 2-d indicator of 0/1 entries whose number of
    columns is numOutput, the indicator checks pass exactly when the
    indicator is a step mask: some rows of zeros (possibly none) followed
    by at least one row, all of ones. *)
Theorem binary_indicator_accepted_iff_step_mask t li r c :
  nd_shape li = [r; S c] ->
  nd_wf li ->
  numOutput t = Z.of_nat (S c) ->
  Forall (fun x => x = 0 \/ x = 1) (nd_data li) ->
  (validate_indicator t li = Ok tt <->
   exists idx, (idx < r)%nat /\ li = step_mask r (S c) idx).
Proof.
  intros Hs Hwf HO Hbin. rewrite validate_indicator_iff, HO. split.
  - intros (_ & idx & [Hg _] & Hs0 & Hs1).
    destruct (getitem2_ok_inv _ _ _ _ Hg) as (r' & c' & Hs' & Hidx & _).
    rewrite Hs in Hs'. inversion Hs'; subst r' c'. clear Hs'.
    exists idx. split; [exact Hidx|].
    destruct li as [shape data]. simpl in *. subst shape.
    unfold nd_wf in Hwf. simpl in Hwf.
    unfold np_sum, slice_to, slice_from, nd_len, row_size in Hs0, Hs1.
    simpl in Hs0, Hs1.
    rewrite clamp_bound_in in Hs0, Hs1 by lia.
    replace (c + 0)%nat with c in * by lia.
    replace (c * 1)%nat with c in * by lia.
    set (k := (idx * S c)%nat) in *.
    assert (Hk : (k <= length data)%nat) by (subst k; nia).
    assert (Hb0 : Forall (fun x => x = 0 \/ x = 1) (firstn k data))
      by (apply Forall_take; exact Hbin).
    assert (Hb1 : Forall (fun x => x = 0 \/ x = 1) (skipn k data))
      by (apply Forall_drop; exact Hbin).
    apply (binary_sum_zero _ Hb0) in Hs0.
    assert (Hl1 : length (skipn k data) = ((r - idx) * S c)%nat)
      by (rewrite length_skipn; subst k; nia).
    assert (Hs1' : fold_right Z.add 0 (skipn k data) =
                   Z.of_nat (length (skipn k data)))
      by (rewrite Hs1, Hl1; nia).
    apply (binary_sum_full _ Hb1) in Hs1'.
    rewrite length_firstn, Nat.min_l in Hs0 by exact Hk.
    rewrite Hl1 in Hs1'.
    unfold step_mask. f_equal.
    rewrite <- (firstn_skipn k data). rewrite Hs0, Hs1'.
    subst k. reflexivity.
  - intros (idx & Hidx & ->). apply step_mask_accepted. exact Hidx.
Qed.

Lemma binary_indicator_accepted_iff_step_mask_witness :
  validate_indicator (ex_trainer None "l2" true) ex_indicator = Ok tt <->
  exists idx, (idx < 2)%nat /\ ex_indicator = step_mask 2 3 idx.
Proof.
  apply (binary_indicator_accepted_iff_step_mask
           (ex_trainer None "l2" true) ex_indicator 2 2).
  - reflexivity.
  - reflexivity.
  - reflexivity.
  - simpl.
    repeat (constructor; [(left; reflexivity) || (right; reflexivity)|]).
    constructor.
Defined.

(** ** The life of a trainer *)

(** X7. Whatever calls follow the constructor, and whatever their
    outcomes, the configuration of the trainer (time steps, outputs, graph,
    step size, loss kind, optimizer, automode) stays as constructed. *)
Theorem configuration_never_changes fw T O g ss lt opt am t c w :
  init T O g ss lt opt am = Ok t ->
  evolves fw (mkWorld t c) w ->
  numTimeSteps (self w) = T /\ numOutput (self w) = O /\
  graph (self w) = g /\ stepSize (self w) = ss /\
  lossType (self w) = lt /\ optimizer (self w) = opt /\
  automode (self w) = am.
Proof.
  intros Hinit Hev.
  destruct (init_evolves_inv fw _ _ _ _ _ _ _ _ _ _ Hinit Hev)
    as (_ & -> & Hinv).
  destruct Hinv as (HT & HO & Hg & Hss & Hlt & Hopt & Ham & _).
  auto 10.
Qed.

Lemma configuration_never_changes_witness :
  numTimeSteps
    (self (snd (call broadcast_framework ex_predicted ex_target
                  ex_indicator_5x3
                  (mkWorld (ex_trainer None "l2" true) no_collections)))) = 2
  /\ numOutput
    (self (snd (call broadcast_framework ex_predicted ex_target
                  ex_indicator_5x3
                  (mkWorld (ex_trainer None "l2" true) no_collections)))) = 3
  /\ graph
    (self (snd (call broadcast_framework ex_predicted ex_target
                  ex_indicator_5x3
                  (mkWorld (ex_trainer None "l2" true) no_collections))))
     = None
  /\ stepSize
    (self (snd (call broadcast_framework ex_predicted ex_target
                  ex_indicator_5x3
                  (mkWorld (ex_trainer None "l2" true) no_collections))))
     = 1 # 1000
  /\ lossType
    (self (snd (call broadcast_framework ex_predicted ex_target
                  ex_indicator_5x3
                  (mkWorld (ex_trainer None "l2" true) no_collections))))
     = "l2"
  /\ optimizer
    (self (snd (call broadcast_framework ex_predicted ex_target
                  ex_indicator_5x3
                  (mkWorld (ex_trainer None "l2" true) no_collections))))
     = "Adam"
  /\ automode
    (self (snd (call broadcast_framework ex_predicted ex_target
                  ex_indicator_5x3
                  (mkWorld (ex_trainer None "l2" true) no_collections))))
     = true.
Proof.
  apply (configuration_never_changes broadcast_framework 2 3 None
           (1 # 1000) "l2" "Adam" true
           (ex_trainer None "l2" true) no_collections).
  - reflexivity.
  - eapply evolves_call; [apply evolves_refl | apply surjective_pairing].
Defined.

(** X8. Through any calls of the trainer object and of
    [createOpCollections] (the two entry points meant for callers; direct
    calls of [_createGraph] are not covered), whatever their outcomes and
    whatever the framework refuses: if the
    graph is marked as created, the trainer was built without a graph, is
    validated, and holds a loss handle, the Adam step on exactly that
    handle with the constructor's step size, and a mask variable; if the
    graph is not marked as created there is no train handle (an
    interrupted construction may have left the mask variable and the loss
    handle behind); and before the first successful validation, or on a
    trainer built with a graph, there is neither. *)
Theorem handles_consistent fw T O g ss lt opt am t c w :
  init T O g ss lt opt am = Ok t ->
  evolves fw (mkWorld t c) w ->
  (graphCreated (self w) = true ->
   g = None /\ validInit (self w) = true /\
   exists l li,
     lossOp (self w) = Some l /\
     trainOp (self w) = Some (AdamMinimize ss (Some l)) /\
     lossIndicatorTensor (self w) = Some (mask_variable li)) /\
  (graphCreated (self w) = false -> trainOp (self w) = None) /\
  (validInit (self w) = false \/ g <> None ->
   lossOp (self w) = None /\ lossIndicatorTensor (self w) = None /\
   graphCreated (self w) = false).
Proof.
  intros Hinit Hev.
  destruct (init_evolves_inv fw _ _ _ _ _ _ _ _ _ _ Hinit Hev)
    as (_ & _ & Hinv).
  destruct Hinv as (_ & _ & _ & _ & _ & _ & _ & H1 & H2 & H3 & H4).
  split; [exact H1|]. split; [exact H2|].
  intros [Hv | Hg].
  - destruct (H3 Hv) as (Hgc & Hl & Hli). auto.
  - destruct (H4 Hg) as (Hl & Hli). repeat split; try assumption.
    destruct (graphCreated (self w)) eqn:Hgc; [|reflexivity].
    destruct (H1 eq_refl) as (Hnone & _). contradiction.
Qed.

Lemma handles_consistent_witness :
  (graphCreated
     (self (snd (call broadcast_framework ex_predicted ex_target
                   ex_indicator_5x3
                   (mkWorld (ex_trainer None "l2" true) no_collections))))
   = true ->
   @None Graph = None /\
   validInit
     (self (snd (call broadcast_framework ex_predicted ex_target
                   ex_indicator_5x3
                   (mkWorld (ex_trainer None "l2" true) no_collections))))
   = true /\
   exists l li,
     lossOp
       (self (snd (call broadcast_framework ex_predicted ex_target
                     ex_indicator_5x3
                     (mkWorld (ex_trainer None "l2" true) no_collections))))
     = Some l /\
     trainOp
       (self (snd (call broadcast_framework ex_predicted ex_target
                     ex_indicator_5x3
                     (mkWorld (ex_trainer None "l2" true) no_collections))))
     = Some (AdamMinimize (1 # 1000) (Some l)) /\
     lossIndicatorTensor
       (self (snd (call broadcast_framework ex_predicted ex_target
                     ex_indicator_5x3
                     (mkWorld (ex_trainer None "l2" true) no_collections))))
     = Some (mask_variable li)) /\
  (graphCreated
     (self (snd (call broadcast_framework ex_predicted ex_target
                   ex_indicator_5x3
                   (mkWorld (ex_trainer None "l2" true) no_collections))))
   = false ->
   trainOp
     (self (snd (call broadcast_framework ex_predicted ex_target
                   ex_indicator_5x3
                   (mkWorld (ex_trainer None "l2" true) no_collections))))
   = None) /\
  (validInit
     (self (snd (call broadcast_framework ex_predicted ex_target
                   ex_indicator_5x3
                   (mkWorld (ex_trainer None "l2" true) no_collections))))
   = false \/ @None Graph <> None ->
   lossOp
     (self (snd (call broadcast_framework ex_predicted ex_target
                   ex_indicator_5x3
                   (mkWorld (ex_trainer None "l2" true) no_collections))))
   = None /\
   lossIndicatorTensor
     (self (snd (call broadcast_framework ex_predicted ex_target
                   ex_indicator_5x3
                   (mkWorld (ex_trainer None "l2" true) no_collections))))
   = None /\
   graphCreated
     (self (snd (call broadcast_framework ex_predicted ex_target
                   ex_indicator_5x3
                   (mkWorld (ex_trainer None "l2" true) no_collections))))
   = false).
Proof.
  apply (handles_consistent broadcast_framework 2 3 None (1 # 1000) "l2"
           "Adam" true (ex_trainer None "l2" true) no_collections).
  - reflexivity.
  - eapply evolves_call; [apply evolves_refl | apply surjective_pairing].
Defined.

Example interrupted_construction_leaves_the_mask :
  lossIndicatorTensor
    (self (snd (call broadcast_framework ex_predicted ex_target
                  ex_indicator_5x3
                  (mkWorld (ex_trainer None "l2" true) no_collections))))
  = Some (mask_variable ex_indicator_5x3) /\
  graphCreated
    (self (snd (call broadcast_framework ex_predicted ex_target
                  ex_indicator_5x3
                  (mkWorld (ex_trainer None "l2" true) no_collections))))
  = false.
Proof. split; reflexivity. Qed.

(** X9. A trainer constructed with a graph never gets its graph created:
    after any calls, the graph is still not created and every further call
    raises, either the validation failure of its inputs or the attribute
    error for the missing restore method. *)
Theorem trainer_with_graph_never_builds fw T O g ss lt opt am t c w :
  init T O (Some g) ss lt opt am = Ok t ->
  evolves fw (mkWorld t c) w ->
  graphCreated (self w) = false /\
  forall p y li,
    (exists e, validate_checks (self w) p y li = Raise e /\
               call fw p y li w = (Raise e, w)) \/
    (validate_checks (self w) p y li = Ok tt /\
     fst (call fw p y li w) = Raise (AttributeError "_restoreGraph")).
Proof.
  intros Hinit Hev.
  destruct (init_evolves_inv fw _ _ _ _ _ _ _ _ _ _ Hinit Hev)
    as (_ & _ & Hinv).
  destruct w as [t' c']. simpl in *.
  destruct Hinv as (_ & _ & Hgr & _ & _ & _ & _ & H1 & _).
  assert (Hgc : graphCreated t' = false).
  { destruct (graphCreated t') eqn:E; [|reflexivity].
    destruct (H1 eq_refl) as (Hnone & _). discriminate. }
  split; [exact Hgc|].
  intros p y li.
  destruct (validate_checks t' p y li) as [[]|e] eqn:Hv.
  - right. split; [reflexivity|].
    rewrite (call_with_graph fw t' c' p y li g Hgc Hv Hgr). reflexivity.
  - left. exists e. split; [reflexivity|].
    apply call_validation_fails; assumption.
Qed.

Lemma trainer_with_graph_never_builds_witness :
  graphCreated
    (self (snd (call accepting_framework ex_predicted ex_target ex_indicator
                  (mkWorld (ex_trainer (Some (GraphRef "emi")) "l2" true)
                           no_collections)))) = false /\
  forall p y li,
    (exists e,
       validate_checks
         (self (snd (call accepting_framework ex_predicted ex_target
                       ex_indicator
                       (mkWorld (ex_trainer (Some (GraphRef "emi")) "l2" true)
                                no_collections)))) p y li = Raise e /\
       call accepting_framework p y li
         (snd (call accepting_framework ex_predicted ex_target ex_indicator
                 (mkWorld (ex_trainer (Some (GraphRef "emi")) "l2" true)
                          no_collections))) =
       (Raise e,
        snd (call accepting_framework ex_predicted ex_target ex_indicator
               (mkWorld (ex_trainer (Some (GraphRef "emi")) "l2" true)
                        no_collections)))) \/
    (validate_checks
       (self (snd (call accepting_framework ex_predicted ex_target
                     ex_indicator
                     (mkWorld (ex_trainer (Some (GraphRef "emi")) "l2" true)
                              no_collections)))) p y li = Ok tt /\
     fst (call accepting_framework p y li
            (snd (call accepting_framework ex_predicted ex_target
                    ex_indicator
                    (mkWorld (ex_trainer (Some (GraphRef "emi")) "l2" true)
                             no_collections)))) =
     Raise (AttributeError "_restoreGraph")).
Proof.
  apply (trainer_with_graph_never_builds accepting_framework 2 3
           (GraphRef "emi") (1 # 1000) "l2" "Adam" true
           (ex_trainer (Some (GraphRef "emi")) "l2" true) no_collections).
  - reflexivity.
  - eapply evolves_call; [apply evolves_refl | apply surjective_pairing].
Defined.

(** ** Collections *)




(** ** Rejected calls *)

(** X12. Calls whose inputs fail validation, with whatever exception,
    leave no trace: after any run of them on a trainer whose graph is not
    created the world is as before, so a later call behaves as if they had
    never been made. *)
Theorem rejected_calls_change_nothing fw t c args :
  graphCreated t = false ->
  Forall (fun a => exists e,
            validate_checks t (fst (fst a)) (snd (fst a)) (snd a) = Raise e)
         args ->
  run_calls fw args (mkWorld t c) = mkWorld t c /\
  forall p y li,
    call fw p y li (run_calls fw args (mkWorld t c)) =
    call fw p y li (mkWorld t c).
Proof.
  intros Hg Hall.
  assert (Hrun : run_calls fw args (mkWorld t c) = mkWorld t c).
  { induction Hall as [|[[p y] li] args [e He] _ IH]; [reflexivity|].
    simpl in *. rewrite (call_validation_fails fw t c p y li e Hg He).
    simpl. exact IH. }
  split; [exact Hrun|]. intros p y li. rewrite Hrun. reflexivity.
Qed.

Lemma rejected_calls_change_nothing_witness :
  run_calls broadcast_framework
            [(ex_predicted, ex_target_1d, ex_indicator);
             (ex_predicted, ex_target, ex_indicator_nocols);
             (ex_predicted, ex_target, ex_indicator_1d)]
            (mkWorld (ex_trainer None "l2" true) no_collections) =
  mkWorld (ex_trainer None "l2" true) no_collections /\
  forall p y li,
    call broadcast_framework p y li
      (run_calls broadcast_framework
                 [(ex_predicted, ex_target_1d, ex_indicator);
                  (ex_predicted, ex_target, ex_indicator_nocols);
                  (ex_predicted, ex_target, ex_indicator_1d)]
                 (mkWorld (ex_trainer None "l2" true) no_collections)) =
    call broadcast_framework p y li
         (mkWorld (ex_trainer None "l2" true) no_collections).
Proof.
  apply rejected_calls_change_nothing.
  - reflexivity.
  - constructor; [eexists; reflexivity|].
    constructor; [eexists; reflexivity|].
    constructor; [eexists; reflexivity|].
    constructor.
Defined.

(** ** Building the graph without validation *)

(** X13. [_createGraph] on a trainer that has not been validated never
    succeeds and never changes the trainer: it first hands the two target
    nodes to the framework, whose exception comes out if it refuses one,
    and then fails on the assertion 'Initialization failure' before the
    mask variable, the loss or the train step is asked for. *)
Theorem createGraph_requires_validation fw t c p y li :
  validInit t = false ->
  createGraph fw p y li (mkWorld t c) =
  match add_nodes fw (target_nodes (numTimeSteps t) y) c with
  | (Some name, c') => (Raise (FrameworkError name), mkWorld t c')
  | (None, c') =>
      (Raise (AssertionError (Some "Initialization failure")), mkWorld t c')
  end.
Proof.
  intros Hv.
  unfold createGraph, transformY, createLossOp, bind, build, get_self,
    assertM, lift, ret, target_nodes; cbn.
  destruct (add_node fw (ExpandDims (Given y) 2) c) as [[n1|] c1]; cbn;
    [reflexivity|].
  destruct (add_node fw _ c1) as [[n2|] c2]; cbn; [reflexivity|].
  rewrite Hv. reflexivity.
Qed.

Lemma createGraph_requires_validation_witness :
  createGraph collecting_framework ex_predicted ex_target ex_indicator
              (mkWorld (ex_trainer None "l2" true) no_collections) =
  match add_nodes collecting_framework
          (target_nodes (numTimeSteps (ex_trainer None "l2" true)) ex_target)
          no_collections with
  | (Some name, c') =>
      (Raise (FrameworkError name), mkWorld (ex_trainer None "l2" true) c')
  | (None, c') =>
      (Raise (AssertionError (Some "Initialization failure")),
       mkWorld (ex_trainer None "l2" true) c')
  end.
Proof.
  apply createGraph_requires_validation. reflexivity.
Defined.

(** ** More on training *)

Section TrainingMore.

Context {Session Val Feed : Type}.
Variable sess_run :
  Session -> list (option Node) -> option Feed -> result (list Val) * Session.
Variable t : Trainer.
Variable redirFile : option string.
Variable echoInterval : Z.
Variable feedDict : option Feed.

(** The loop never lets the end-of-data error out, and when it returns it
    is on that error, whatever the callback. *)
Lemma trainModel_loop_catches cb fuel : forall k st out kf st',
  trainModel_loop sess_run fuel t redirFile echoInterval cb feedDict k st
    = (out, kf, st') ->
  out <> Raised OutOfRangeError /\
  (out = Returned ->
   exists stn,
     try_body sess_run t redirFile echoInterval cb feedDict kf stn
       = (Raise OutOfRangeError, st')).
Proof.
  induction fuel as [|fuel IH]; intros k st out kf st' H.
  - simpl in H. inversion H; subst. split; [discriminate|].
    intros Hr. discriminate.
  - rewrite trainModel_loop_step in H.
    destruct (try_body _ _ _ _ _ _ k st) as [[[]|e] st1] eqn:Hb.
    + exact (IH _ _ _ _ _ H).
    + inversion H; subst. split.
      * destruct e; simpl; discriminate.
      * intros Hr. exists st. destruct e; simpl in Hr; try discriminate.
        exact Hb.
Qed.

Lemma described_echo_printed k st r st' :
  described_echo sess_run t redirFile feedDict k st = (r, st') ->
  match r with
  | Ok _ =>
      exists loss, printed st' = (printed st ++ [(redirFile, k, loss)])%list
  | Raise _ => printed st' = printed st
  end.
Proof.
  unfold described_echo.
  destruct (sess_run (session st) _ feedDict) as [[vals|e] s'].
  - destruct vals as [|v1 [|loss [|v3 vals]]]; intros H; inversion H;
      subst; simpl; eauto.
  - intros H; inversion H; subst; reflexivity.
Qed.

Lemma described_plain_printed st r st' :
  described_plain sess_run t feedDict st = (r, st') ->
  printed st' = printed st.
Proof.
  unfold described_plain.
  destruct (sess_run (session st) _ feedDict) as [[vals|e] s'];
    intros H; inversion H; subst; reflexivity.
Qed.

Lemma batch_step_printed k st r st' :
  batch_step sess_run t redirFile echoInterval None feedDict k st = (r, st')
  ->
  match r with
  | Ok _ =>
      exists new,
        printed st' = (printed st ++ new)%list /\
        map (fun e => snd (fst e)) new =
          List.filter (fun b => b mod echoInterval =? 0) [k] /\
        Forall (fun e => fst (fst e) = redirFile) new
  | Raise _ => printed st' = printed st
  end.
Proof.
  unfold batch_step. intros H.
  destruct (Z.eq_dec (k mod echoInterval) 0) as [H0|H0].
  - apply described_echo_printed in H. destruct r as [[]|e]; [|exact H].
    destruct H as [loss ->]. exists [(redirFile, k, loss)].
    simpl. rewrite H0. simpl. repeat split. repeat constructor.
  - apply described_plain_printed in H. destruct r as [[]|e]; [|exact H].
    exists []. simpl. apply Z.eqb_neq in H0. rewrite H0, app_nil_r.
    repeat split; [exact H | constructor].
Qed.

Lemma map_seq_succ {A} (f : nat -> A) n : forall s,
  map f (seq (S s) n) = map (fun i => f (S i)) (seq s n).
Proof.
  induction n as [|n IH]; intros s; simpl; [reflexivity|].
  f_equal. apply IH.
Qed.

Lemma batches_printed n : forall k st st',
  batches sess_run t redirFile echoInterval None feedDict n k st st' ->
  exists new,
    printed st' = (printed st ++ new)%list /\
    map (fun e => snd (fst e)) new =
      List.filter (fun b => b mod echoInterval =? 0)
                  (map (fun i => k + Z.of_nat i) (seq 0 n)) /\
    Forall (fun e => fst (fst e) = redirFile) new.
Proof.
  induction n as [|n IH]; intros k st st' Hb; inversion Hb; subst.
  - exists []. rewrite app_nil_r. repeat split. constructor.
  - match goal with
    | H : batch_step _ _ _ _ _ _ k st = _ |- _ =>
        apply batch_step_printed in H;
          destruct H as (new1 & Hp1 & Hm1 & Hf1)
    end.
    match goal with
    | H : batches _ _ _ _ _ _ n (k + 1) _ _ |- _ =>
        destruct (IH _ _ _ H) as (new2 & Hp2 & Hm2 & Hf2)
    end.
    exists (new1 ++ new2)%list. split; [|split].
    + rewrite Hp2, Hp1, app_assoc. reflexivity.
    + rewrite map_app, Hm1, Hm2, <- List.filter_app.
      f_equal. cbn [seq map]. rewrite map_seq_succ. cbn [app].
      f_equal; [lia|]. apply map_ext. intros i. lia.
    + apply Forall_app. split; assumption.
Qed.

End TrainingMore.

(** X14. Whatever the echo callback a caller supplies, a training pass
    never lets the end-of-data error out; it returns normally only when the
    statements under [try], callback included, raised that error; and when
    the callback itself raises it on an echoed batch that follows [n] good
    batches, the pass does return normally, with the counter at [n]. *)
Theorem trainModel_catches_end_of_data {Session Val Feed : Type}
    (sess_run : Session -> list (option Node) -> option Feed ->
                result (list Val) * Session)
    t redirFile echoInterval (cb : Callback Session Val Feed) feedDict st0 :
  (forall fuel out kf st',
     trainModel sess_run fuel t redirFile echoInterval (Some cb) feedDict st0
       = (out, kf, st') ->
     out <> Raised OutOfRangeError /\
     (out = Returned ->
      exists stn,
        try_body sess_run t redirFile echoInterval cb feedDict kf stn
          = (Raise OutOfRangeError, st'))) /\
  (echoInterval <> 0 ->
   forall n stn st' fuel,
     batches sess_run t redirFile echoInterval (Some cb) feedDict n 0 st0 stn
     ->
     Z.of_nat n mod echoInterval = 0 ->
     cb feedDict (Z.of_nat n) redirFile stn = (Raise OutOfRangeError, st') ->
     (n < fuel)%nat ->
     trainModel sess_run fuel t redirFile echoInterval (Some cb) feedDict st0
       = (Returned, Z.of_nat n, st')).
Proof.
  split.
  - intros fuel out kf st' H. unfold trainModel in H.
    exact (trainModel_loop_catches sess_run t redirFile echoInterval feedDict
             cb fuel 0 st0 out kf st' H).
  - intros Hne n stn st' fuel Hb Hmod Hcb Hfuel.
    rewrite trainModel_unfold.
    rewrite (trainModel_loop_complete sess_run t redirFile echoInterval
               (Some cb) feedDict n 0 st0 stn OutOfRangeError st' fuel Hne Hb);
      [reflexivity | | exact Hfuel].
    unfold batch_step. rewrite Z.add_0_l.
    destruct (Z.eq_dec (Z.of_nat n mod echoInterval) 0) as [_|Hn];
      [exact Hcb | contradiction].
Qed.

Lemma trainModel_catches_end_of_data_witness :
  1 <> 0 /\
  trainModel ex_sess_run 10 (ex_trainer None "l2" true) None 1
             (Some ex_callback_stop) None (mkTState 5%nat []) =
  (Returned, 2, mkTState 5%nat []).
Proof.
  split; [discriminate|].
  destruct (trainModel_catches_end_of_data ex_sess_run
              (ex_trainer None "l2" true) None 1 ex_callback_stop None
              (mkTState 5%nat [])) as [_ H].
  apply (H ltac:(discriminate) 2%nat (mkTState 5%nat [])).
  - eapply batches_cons; [reflexivity|].
    eapply batches_cons; [reflexivity|].
    apply batches_nil.
  - reflexivity.
  - reflexivity.
  - lia.
Defined.

(** X15. With the default echo callback and a non-zero interval, what a
    training pass prints is exactly one line per echoed batch: the lines
    added are those of the batches below the final counter whose number is
    a multiple of the interval, in increasing order, all sent to the
    requested destination; a failing batch prints nothing. *)
Theorem trainModel_prints_echoed_batches {Session Val Feed : Type}
    (sess_run : Session -> list (option Node) -> option Feed ->
                result (list Val) * Session)
    fuel t redirFile echoInterval feedDict (st0 : TState Session Val)
    out kf st' :
  echoInterval <> 0 ->
  trainModel sess_run fuel t redirFile echoInterval None feedDict st0
    = (out, kf, st') ->
  exists n new,
    kf = Z.of_nat n /\
    printed st' = (printed st0 ++ new)%list /\
    map (fun e => snd (fst e)) new = echo_batches echoInterval n /\
    Forall (fun e => fst (fst e) = redirFile) new.
Proof.
  intros Hne H. rewrite trainModel_unfold in H.
  apply (trainModel_loop_sound sess_run t redirFile echoInterval None
           feedDict fuel 0 st0 out kf st' Hne) in H.
  assert (Hgood : forall n stn,
            batches sess_run t redirFile echoInterval None feedDict n 0 st0
                    stn ->
            exists new,
              printed stn = (printed st0 ++ new)%list /\
              map (fun e => snd (fst e)) new = echo_batches echoInterval n /\
              Forall (fun e => fst (fst e) = redirFile) new).
  { intros n stn Hb.
    destruct (batches_printed sess_run t redirFile echoInterval feedDict
                n 0 st0 stn Hb) as (new & Hp & Hm & Hf).
    exists new. repeat split; assumption. }
  assert (Hstop : forall n stn e,
            kf = 0 + Z.of_nat n ->
            batches sess_run t redirFile echoInterval None feedDict n 0 st0
                    stn ->
            batch_step sess_run t redirFile echoInterval None feedDict kf stn
              = (Raise e, st') ->
            exists n new,
              kf = Z.of_nat n /\
              printed st' = (printed st0 ++ new)%list /\
              map (fun e => snd (fst e)) new = echo_batches echoInterval n /\
              Forall (fun e => fst (fst e) = redirFile) new).
  { intros n stn e Hk Hb Hf.
    destruct (Hgood n stn Hb) as (new & Hp & Hm & Hd).
    apply batch_step_printed in Hf. simpl in Hf.
    exists n, new. rewrite Hf. repeat split; assumption || lia. }
  destruct out.
  - destruct H as (n & stn & e & _ & Hk & Hb & Hf & _). eauto.
  - destruct H as (n & stn & e0 & _ & Hk & Hb & Hf & _). eauto.
  - destruct H as [Hk Hb].
    destruct (Hgood fuel st' Hb) as (new & Hp & Hm & Hd).
    exists fuel, new. repeat split; assumption || lia.
Qed.

Lemma trainModel_prints_echoed_batches_witness :
  exists n new,
    3 = Z.of_nat n /\
    printed (mkTState 0%nat [(@None string, 0, 7); (None, 2, 7)]) =
      (printed (mkTState 3%nat (@nil (option string * Z * Z))) ++ new)%list /\
    map (fun e => snd (fst e)) new = echo_batches 2 n /\
    Forall (fun e => fst (fst e) = None) new.
Proof.
  apply (trainModel_prints_echoed_batches ex_sess_run 10
           (ex_trainer None "l2" true) None 2 None (mkTState 3%nat [])
           Returned 3 (mkTState 0%nat [(None, 0, 7); (None, 2, 7)])).
  - discriminate.
  - reflexivity.
Defined.
